(** * Example 3 setup: poroelasticity with fracture contact

    A shallow embedding of [setup_3.py] (class [Example3Setup]):
    the constructor, [set_parameters], [initial_condition] and
    [bc_values].

    - Python floats and numpy float64 entries are binary64 numbers
      ([PrimFloat.float]); arithmetic and comparisons are the IEEE ones.
    - A one-dimensional ndarray is a list, a two-dimensional one the list
      of its rows.
    - Python dictionaries with string keys are [gmap string _].
    - Raised exceptions are values of [Exception]; code that mutates
      [self], [data_node] or [data_edge] runs in a state monad that keeps
      the state reached at the moment an exception is raised.
    - porepy objects (discretizations, tensors, boundary conditions) are
      represented by their constructor and its arguments; their
      constructors and [Biot.discretize] are taken to return.
    - Python raises ZeroDivisionError when a float is divided by zero,
      binary64 division returns an infinity or a NaN. The setup divides by
      [end_time / 2] (only when [t < end_time / 2]) and by
      [pressure_scale]; the statements on returned boundary values and
      on the exception a call raises assume a divisor that is not zero, or
      a time [t >= 0], at which the first division is reached only with a
      positive divisor. *)

From Stdlib Require Import ZArith Floats.
From stdpp Require Import base option gmap strings list list_numbers.

Set Warnings "-inexact-float,-register-all".
#[local] Open Scope string_scope.

(** ** Exceptions and the error monad *)

Inductive Exception :=
| ValueError (msg : string)
| IndexError (msg : string)
| KeyError (key : string)
| AttributeError (attr : string)
| RuntimeError (msg : string).

Inductive result (A : Type) :=
| Ok (a : A)
| Raise (e : Exception).
Arguments Ok {A} a.
Arguments Raise {A} e.

Definition result_bind {A B} (r : result A) (f : A → result B) : result B :=
  match r with Ok a => f a | Raise e => Raise e end.

Declare Scope result_scope.
Delimit Scope result_scope with R.
Bind Scope result_scope with result.
Notation "x ← y ; z" := (result_bind y (λ x, z))
  (at level 20, y at level 100, z at level 200, only parsing) : result_scope.

Definition is_Ok {A} (r : result A) : Prop := ∃ a, r = Ok a.

(** ** The part of numpy the setup uses *)

Module np.

Definition zeros (n : nat) : list float := replicate n 0%float.
Definition ones (n : nat) : list float := replicate n 1%float.

(** [np.zeros((r, c))] *)
Definition zeros2 (r c : nat) : list (list float) := replicate r (zeros c).

(** numpy's maximum and minimum of two entries; a NaN wins. *)
Definition maximum (a b : float) : float :=
  if is_nan a then a else if is_nan b then b else
  if (a <? b)%float then b else a.
Definition minimum (a b : float) : float :=
  if is_nan a then a else if is_nan b then b else
  if (b <? a)%float then b else a.

(** [np.max(a)] and [np.min(a)] raise on an empty array. *)
Definition max (a : list float) : result float :=
  match a with
  | [] => Raise (ValueError "zero-size array to reduction operation maximum which has no identity")
  | x :: xs => Ok (foldl maximum x xs)
  end.
Definition min (a : list float) : result float :=
  match a with
  | [] => Raise (ValueError "zero-size array to reduction operation minimum which has no identity")
  | x :: xs => Ok (foldl minimum x xs)
  end.

(** [a[i]] for a Python integer [i]: negative indices count from the end. *)
Definition getitem {A} (a : list A) (i : Z) : result A :=
  let n := Z.of_nat (length a) in
  let j := if (i <? 0)%Z then (i + n)%Z else i in
  if (j <? 0)%Z then Raise (IndexError "index out of bounds")
  else match a !! Z.to_nat j with
       | Some x => Ok x
       | None => Raise (IndexError "index out of bounds")
       end.

(** [a[idx]] for an integer index array [idx] (non-negative entries). *)
Fixpoint take {A} (a : list A) (idx : list nat) : result (list A) :=
  match idx with
  | [] => Ok []
  | i :: idx' =>
      match a !! i with
      | Some x => (xs ← take a idx'; Ok (x :: xs))%R
      | None => Raise (IndexError "index out of bounds")
      end
  end.

(** [a[r, mask] = v]: row [r] must exist and the boolean mask must have
    the length of a row. *)
Definition setitem_row_mask (a : list (list float)) (r : nat)
    (mask : list bool) (v : float) : result (list (list float)) :=
  match a !! r with
  | None => Raise (IndexError "index out of bounds for axis 0")
  | Some row =>
      if decide (length mask = length row)
      then Ok (<[r := zip_with (λ (b : bool) old, if b then v else old) mask row]> a)
      else Raise (IndexError "boolean index did not match indexed array")
  end.

(** [a.ravel('F')] of a two-dimensional array: column after column. *)
Definition ncols (a : list (list float)) : nat :=
  match a with [] => 0 | row :: _ => length row end.
Definition ravel_F (a : list (list float)) : list float :=
  mjoin ((λ j, (λ row : list float, nth j row 0%float) <$> a) <$> seq 0 (ncols a)).

End np.

(** ** Grids *)

Module Grid.
(** A porepy grid, with the part of [pp.fvutils.SubcellTopology] the
    setup reads: [fno_unique] holds the face number of each unique
    sub-face. [grid_id] is the identity of the Python object (grids are
    hashed by identity when used as dictionary keys). *)
Record t := {
  grid_id : nat;
  dim : nat;
  num_cells : nat;
  face_centers : list (list float);
  nodes : list (list float);
  fno_unique : list nat
}.

(** Geometry arrays have three rows of equal length, there is at least
    one node, and sub-faces refer to existing faces. *)
Definition well_formed (g : t) : bool :=
  bool_decide (length (face_centers g) = 3) &&
  bool_decide (length (nodes g) = 3) &&
  forallb (λ row, bool_decide (length row = np.ncols (face_centers g))) (face_centers g) &&
  forallb (λ row, bool_decide (length row = np.ncols (nodes g))) (nodes g) &&
  bool_decide (0 < np.ncols (nodes g))%nat &&
  forallb (λ f, bool_decide (f < np.ncols (face_centers g))%nat) (fno_unique g) &&
  bool_decide (dim g ≤ 3)%nat.
End Grid.

Module MortarGrid.
Record t := { num_cells : nat }.
End MortarGrid.

Module SubcellTopology.
Record t := { fno_unique : list nat; num_subfno_unique : nat }.
(** [pp.fvutils.SubcellTopology(g)] *)
Definition make (g : Grid.t) : t :=
  {| fno_unique := Grid.fno_unique g;
     num_subfno_unique := length (Grid.fno_unique g) |}.
End SubcellTopology.

(** ** porepy unit constants *)

Module pp.
Definition MILLI : float := 1e-3.
Definition PASCAL : float := 1.
Definition METER : float := 1.
Definition SECOND : float := 1.
End pp.

(** ** The setup object *)

Record Setup := {
  mesh_args : list (string * float);
  out_name : string;
  store : bool;
  end_time : float;
  S_ : float;           (* self.S *)
  k_ : float;           (* self.k *)
  viscosity : float;
  pressure_scale : float;  (* set by the constructor of Example1Setup *)
  key_m : option string;
  key_f : option string
}.

Definition set_key_m (v : string) (s : Setup) : Setup :=
  {| mesh_args := mesh_args s; out_name := out_name s; store := store s;
     end_time := end_time s; S_ := S_ s; k_ := k_ s; viscosity := viscosity s;
     pressure_scale := pressure_scale s; key_m := Some v; key_f := key_f s |}.
Definition set_key_f (v : string) (s : Setup) : Setup :=
  {| mesh_args := mesh_args s; out_name := out_name s; store := store s;
     end_time := end_time s; S_ := S_ s; k_ := k_ s; viscosity := viscosity s;
     pressure_scale := pressure_scale s; key_m := key_m s; key_f := Some v |}.

(** ** Values stored in the data dictionaries *)

Inductive Discretization :=
| Mpsa (keyword : string)                (* pp.Mpsa *)
| ImplicitMpfa (keyword : string)        (* discretizations.ImplicitMpfa *)
| ImplicitMassMatrix (keyword : string)  (* discretizations.ImplicitMassMatrix *)
| BiotStabilization (keyword : string)   (* pp.BiotStabilization *)
| GradP (keyword : string)               (* pp.GradP *)
| DivD (keyword : string).               (* pp.DivD *)

Inductive InterfaceLaw :=
| RobinContact (keyword : string) (d : Discretization)
| RobinContactBiotPressure (keyword : string) (d : Discretization)
| DivU_StressMortar (keyword : string) (d : Discretization).

(** An entry of a coupling: a grid maps to a pair (variable, term name),
    an edge to a pair (mortar variable, interface law). *)
Inductive CouplingEntry :=
| Term (variable term : string)
| Law (variable : string) (law : InterfaceLaw).

Record BoundaryCondition := {
  bc_grid : nat;
  bc_faces : list bool;
  bc_cond : string
}.

Record SecondOrderTensor := { tensor_dim : nat; kxx : list float }.

Inductive Value :=
| VInt (z : Z)
| VFloat (x : float)
| VArray (a : list float)
| VBoundary (bc : BoundaryCondition)
| VTensor (K : SecondOrderTensor)
| VDict (d : gmap string Value)
| VObject (repr : string).

(** A dictionary display [{k1: v1, k2: v2, ...}]: items are stored from
    left to right, so a repeated key keeps its last value. *)
Definition dict_display `{Countable K} {V} (items : list (K * V)) : gmap K V :=
  foldl (λ m kv, <[kv.1 := kv.2]> m) ∅ items.

(** The data dictionary of a grid ([data_node]) or of an edge
    ([data_edge]), by the porepy keys the setup touches. Keys of a
    coupling are a grid [g] ([inl]) or a pair of grids [(g, g')] ([inr]),
    by object identity. *)
Record Data := {
  PARAMETERS : option (gmap string (gmap string Value));
  PRIMARY_VARIABLES : option (gmap string (gmap string nat));
  DISCRETIZATION : option (gmap string (gmap string Discretization));
  COUPLING_DISCRETIZATION : option (gmap string (gmap (nat + nat * nat) CouplingEntry));
  DISCRETIZATION_MATRICES : option (gmap string (gset string))
}.

Definition set_PARAMETERS v (d : Data) : Data :=
  {| PARAMETERS := Some v; PRIMARY_VARIABLES := PRIMARY_VARIABLES d;
     DISCRETIZATION := DISCRETIZATION d;
     COUPLING_DISCRETIZATION := COUPLING_DISCRETIZATION d;
     DISCRETIZATION_MATRICES := DISCRETIZATION_MATRICES d |}.
Definition set_PRIMARY_VARIABLES v (d : Data) : Data :=
  {| PARAMETERS := PARAMETERS d; PRIMARY_VARIABLES := Some v;
     DISCRETIZATION := DISCRETIZATION d;
     COUPLING_DISCRETIZATION := COUPLING_DISCRETIZATION d;
     DISCRETIZATION_MATRICES := DISCRETIZATION_MATRICES d |}.
Definition set_DISCRETIZATION v (d : Data) : Data :=
  {| PARAMETERS := PARAMETERS d; PRIMARY_VARIABLES := PRIMARY_VARIABLES d;
     DISCRETIZATION := Some v;
     COUPLING_DISCRETIZATION := COUPLING_DISCRETIZATION d;
     DISCRETIZATION_MATRICES := DISCRETIZATION_MATRICES d |}.
Definition set_COUPLING_DISCRETIZATION v (d : Data) : Data :=
  {| PARAMETERS := PARAMETERS d; PRIMARY_VARIABLES := PRIMARY_VARIABLES d;
     DISCRETIZATION := DISCRETIZATION d;
     COUPLING_DISCRETIZATION := Some v;
     DISCRETIZATION_MATRICES := DISCRETIZATION_MATRICES d |}.
Definition set_DISCRETIZATION_MATRICES v (d : Data) : Data :=
  {| PARAMETERS := PARAMETERS d; PRIMARY_VARIABLES := PRIMARY_VARIABLES d;
     DISCRETIZATION := DISCRETIZATION d;
     COUPLING_DISCRETIZATION := COUPLING_DISCRETIZATION d;
     DISCRETIZATION_MATRICES := Some v |}.

(** [data[pp.PARAMETERS][keyword][name] = v] *)
Definition param_set (keyword name : string) (v : Value) (d : Data) : result Data :=
  match PARAMETERS d with
  | None => Raise (KeyError "parameters")
  | Some P =>
      match P !! keyword with
      | None => Raise (KeyError keyword)
      | Some dict => Ok (set_PARAMETERS (<[keyword := <[name := v]> dict]> P) d)
      end
  end.

(** [data[pp.PARAMETERS][keyword][name]], for reading the result back. *)
Definition param_get (keyword name : string) (d : Data) : option Value :=
  P ← PARAMETERS d; dict ← P !! keyword; dict !! name.

(** [pp.initialize_data(g, data, keyword, specified_parameters)]: makes
    sure the keyword has a matrix dictionary, then updates the parameter
    dictionary of the keyword (creating what is missing). *)
Definition add_discretization_matrix_keyword (keyword : string) (d : Data) : Data :=
  match DISCRETIZATION_MATRICES d with
  | Some Mx =>
      match Mx !! keyword with
      | Some _ => d
      | None => set_DISCRETIZATION_MATRICES (<[keyword := ∅]> Mx) d
      end
  | None => set_DISCRETIZATION_MATRICES {[keyword := ∅]} d
  end.

Definition initialize_data (keyword : string) (specified : gmap string Value)
    (d : Data) : Data :=
  let d := add_discretization_matrix_keyword keyword d in
  match PARAMETERS d with
  | Some P =>
      match P !! keyword with
      | Some old => set_PARAMETERS (<[keyword := specified ∪ old]> P) d
      | None => set_PARAMETERS (<[keyword := specified]> P) d
      end
  | None => set_PARAMETERS {[keyword := specified]} d
  end.

(** ** The state the methods act on *)

(** Calls into porepy's discretization are recorded, not computed. *)
Inductive Event :=
| BiotDiscretize (mechanics_keyword flow_keyword : string) (grid : nat).

Record World := {
  self : Setup;
  data_node : Data;
  data_edge : Data;
  trace : list Event
}.

Definition M (A : Type) : Type := World → result A * World.

Definition ret {A} (a : A) : M A := λ w, (Ok a, w).
Definition bind {A B} (m : M A) (f : A → M B) : M B :=
  λ w, match m w with
       | (Ok a, w') => f a w'
       | (Raise e, w') => (Raise e, w')
       end.

Declare Scope M_scope.
Delimit Scope M_scope with M.
Bind Scope M_scope with M.
Notation "x ← y ; z" := (bind y (λ x, z))
  (at level 20, y at level 100, z at level 200, only parsing) : M_scope.
Notation "' x ← y ; z" := (bind y (λ x, z))
  (at level 20, x pattern, y at level 100, z at level 200, only parsing) : M_scope.

Definition raise {A} (e : Exception) : M A := λ w, (Raise e, w).
Definition lift {A} (r : result A) : M A := λ w, (r, w).
Definition get_self : M Setup := λ w, (Ok (self w), w).
Definition get_data_node : M Data := λ w, (Ok (data_node w), w).
Definition get_data_edge : M Data := λ w, (Ok (data_edge w), w).
Definition put_self (s : Setup) : M unit :=
  λ w, (Ok tt, {| self := s; data_node := data_node w;
                  data_edge := data_edge w; trace := trace w |}).
Definition put_data_node (d : Data) : M unit :=
  λ w, (Ok tt, {| self := self w; data_node := d;
                  data_edge := data_edge w; trace := trace w |}).
Definition put_data_edge (d : Data) : M unit :=
  λ w, (Ok tt, {| self := self w; data_node := data_node w;
                  data_edge := d; trace := trace w |}).
Definition emit (e : Event) : M unit :=
  λ w, (Ok tt, {| self := self w; data_node := data_node w;
                  data_edge := data_edge w; trace := trace w ++ [e] |}).

(** [data_node[pp.PARAMETERS][keyword][name] = v] and the same on the edge *)
Definition node_param_set (keyword name : string) (v : Value) : M unit :=
  (d ← get_data_node; d' ← lift (param_set keyword name v d); put_data_node d')%M.
Definition edge_param_set (keyword name : string) (v : Value) : M unit :=
  (d ← get_data_edge; d' ← lift (param_set keyword name v d); put_data_edge d')%M.

(** ** The class [Example3Setup] *)

Module Example3Setup.

#[local] Open Scope result_scope.

(** [__init__]: the parent constructor contributes [pressure_scale];
    [pp.METER**2] is the product of [pp.METER] with itself. *)
Definition init (parent_pressure_scale : float)
    (mesh_args : list (string * float)) (out_name : string) : Setup :=
  let S := (1e-10 * 1 / pp.PASCAL)%float in
  let k := (1e-11 * (pp.METER * pp.METER))%float in
  let viscosity := (1 * pp.MILLI * pp.PASCAL * pp.SECOND)%float in
  {| mesh_args := mesh_args; out_name := out_name; store := true;
     end_time := (5 * viscosity * S * pp.METER / k)%float;
     S_ := S; k_ := k; viscosity := viscosity;
     pressure_scale := parent_pressure_scale;
     key_m := None; key_f := None |}.

(** Reading an attribute that [set_parameters] has not yet assigned. *)
Definition attr (name : string) (v : option string) : result string :=
  match v with
  | Some s => Ok s
  | None => Raise (AttributeError name)
  end.

(** [g.face_centers[i] > np.max(g.nodes[i]) - 1e-9] *)
Definition upper_faces (g : Grid.t) (i : Z) : result (list bool) :=
  fc ← np.getitem (Grid.face_centers g) i;
  nd ← np.getitem (Grid.nodes g) i;
  m ← np.max nd;
  Ok ((λ c, (m - 1e-9 <? c)%float) <$> fc).

(** [g.face_centers[i] < np.min(g.nodes[i]) + 1e-9] *)
Definition lower_faces (g : Grid.t) (i : Z) : result (list bool) :=
  fc ← np.getitem (Grid.face_centers g) i;
  nd ← np.getitem (Grid.nodes g) i;
  m ← np.min nd;
  Ok ((λ c, (c <? m + 1e-9)%float) <$> fc).

(** The face mask [top] of [bc_values]. *)
Definition top (g : Grid.t) : result (list bool) :=
  upper_faces g (Z.of_nat (Grid.dim g) - 1).

(** The prescribed displacement at time [t]. *)
Definition displacement (self : Setup) (t : float) : float * float :=
  if (t <? end_time self / 2)%float
  then ((0.005 * t / (end_time self / 2))%float,
        (-0.002 * t / (end_time self / 2))%float)
  else (0.005%float, (-0.002)%float).

Definition bc_values (self : Setup) (g : Grid.t) (t : float) (key : string)
    : result (list float) :=
  let s_t := SubcellTopology.make g in
  top ← top g;
  km ← attr "key_m" (key_m self);
  if bool_decide (key = km) then
    let u_bc := np.zeros2 (Grid.dim g) (SubcellTopology.num_subfno_unique s_t) in
    let '(x, y) := displacement self t in
    mask ← np.take top (SubcellTopology.fno_unique s_t);
    u_bc ← np.setitem_row_mask u_bc 0 mask x;
    mask ← np.take top (SubcellTopology.fno_unique s_t);
    u_bc ← np.setitem_row_mask u_bc 1 mask y;
    Ok (np.ravel_F u_bc)
  else
    kf ← attr "key_f" (key_f self);
    if bool_decide (key = kf) then
      let p_bc := np.zeros (SubcellTopology.num_subfno_unique s_t) in
      Ok p_bc
    else Raise (ValueError ("Unknown keyword: " +:+ key)).

(** [initial_condition]: the guess (u0, uc, Tc) for the Newton iteration. *)
Definition initial_condition (g : Grid.t) (mg : MortarGrid.t)
    (nc : list (list float))
    : list (list float) * list (list float) * list (list float) :=
  let u0 := np.zeros2 (Grid.dim g) (Grid.num_cells g) in
  let Tc := (λ row : list float, (λ v, (-100 * v)%float) <$> row) <$> nc in
  let uc := np.zeros2 (Grid.dim g) (MortarGrid.num_cells mg) in
  (u0, uc, Tc).

(** [pp.BoundaryCondition(g, faces, cond)] followed by
    [pp.fvutils.boundary_to_sub_boundary(bc, s_t)]. *)
Definition boundary_to_sub_boundary (bc : BoundaryCondition)
    (s_t : SubcellTopology.t) : result BoundaryCondition :=
  faces ← np.take (bc_faces bc) (SubcellTopology.fno_unique s_t);
  Ok {| bc_grid := bc_grid bc; bc_faces := faces; bc_cond := bc_cond bc |}.

Section WithParent.

#[local] Open Scope M_scope.

(** [Example1Setup.set_parameters] of [setup_1.py]: it fills the
    mechanics and contact parameters and returns the two keywords. *)
Variable super_set_parameters : Grid.t → MortarGrid.t → M (string * string).

Definition set_parameters (g : Grid.t) (mg : MortarGrid.t) : M (string * string) :=
  '(key_m, key_c) ← super_set_parameters g mg;
  let key_f := "flow" in
  if negb (bool_decide (key_m = key_c))
  then raise (ValueError "Mechanics keyword must equal contact keyword")
  else
  self ← get_self;
  _ ← put_self (set_key_m key_m self);
  self ← get_self;
  _ ← put_self (set_key_f key_f self);
  self ← get_self;
  (* fluid parameters *)
  let kxx := (λ o, (k_ self * o)%float) <$> np.ones (Grid.num_cells g) in
  let viscosity := (viscosity self / pressure_scale self)%float in
  let K := {| tensor_dim := Grid.dim g;
              kxx := (λ v, (v / viscosity)%float) <$> kxx |} in
  (* Biot parameters *)
  let alpha := 1%Z in
  let dt := (end_time self / 20)%float in
  let s_t := SubcellTopology.make g in
  (* boundary conditions for flow *)
  east ← lift (upper_faces g 0);
  west ← lift (lower_faces g 0);
  let bc_flow := {| bc_grid := Grid.grid_id g; bc_faces := west; bc_cond := "dir" |} in
  bc_flow ← lift (boundary_to_sub_boundary bc_flow s_t);
  p_bc ← lift (bc_values self g dt key_f);
  (* initial solution *)
  let u0 := np.zeros (Grid.dim g * Grid.num_cells g) in
  let p0 := np.zeros (Grid.num_cells g) in
  let lam_u0 := np.zeros (Grid.dim g * MortarGrid.num_cells mg) in
  u_bc0 ← lift (bc_values self g 0 key_m);
  u_bc ← lift (bc_values self g dt key_m);
  (* Biot parameters of the mechanics *)
  _ ← node_param_set key_m "biot_alpha" (VInt alpha);
  _ ← node_param_set key_m "time_step" (VFloat dt);
  _ ← node_param_set key_m "bc_values" (VArray u_bc);
  _ ← node_param_set key_m "state"
        (VDict (dict_display [("displacement", VArray u0);
                              ("bc_values", VArray u_bc0)]));
  _ ← edge_param_set key_c "state" (VArray lam_u0);
  (* the flow dictionary *)
  d ← get_data_node;
  _ ← put_data_node
        (initialize_data key_f
           (dict_display [("bc", VBoundary bc_flow);
                          ("bc_values", VArray p_bc);
                          ("second_order_tensor", VTensor K);
                          ("mass_weight", VFloat (S_ self));
                          ("aperture", VArray (np.ones (Grid.num_cells g)));
                          ("biot_alpha", VInt alpha);
                          ("time_step", VFloat dt);
                          ("state", VArray p0)]) d);
  (* discretizations on the grid *)
  d ← get_data_node;
  _ ← put_data_node
        (set_PRIMARY_VARIABLES
           (dict_display [("u", dict_display [("cells", Grid.dim g)]);
                          ("p", dict_display [("cells", 1)])]) d);
  let mpfa_disc := ImplicitMpfa key_f in
  d ← get_data_node;
  _ ← put_data_node
        (set_DISCRETIZATION
           (dict_display
              [("u", dict_display [("div_sigma", Mpsa key_m)]);
               ("p", dict_display [("flux", mpfa_disc);
                                   ("mass", ImplicitMassMatrix key_f);
                                   ("stab", BiotStabilization key_f)]);
               ("u_p", dict_display [("grad_p", GradP key_m)]);
               ("p_u", dict_display [("div_u", DivD key_m)])]) d);
  (* couplings on the mortar grid *)
  let gradP_disp := RobinContactBiotPressure key_m (GradP key_m) in
  let div_u_lam := DivU_StressMortar key_m (DivD key_m) in
  let gk : nat + nat * nat := inl (Grid.grid_id g) in
  let ek : nat + nat * nat := inr (Grid.grid_id g, Grid.grid_id g) in
  d ← get_data_edge;
  _ ← put_data_edge
        (set_PRIMARY_VARIABLES
           (dict_display [("lam_u", dict_display [("cells", Grid.dim g)])]) d);
  d ← get_data_edge;
  _ ← put_data_edge
        (set_COUPLING_DISCRETIZATION
           (dict_display
              [("robin_discretization",
                 dict_display [(gk, Term "u" "div_sigma");
                               (gk, Term "u" "div_sigma");
                               (ek, Law "lam_u" (RobinContact key_m (Mpsa key_m)))]);
               ("p_contribution_to_displacement",
                 dict_display [(gk, Term "p" "flux");
                               (gk, Term "p" "flux");
                               (ek, Law "lam_u" gradP_disp)]);
               ("lam_u_contr_2_div_u",
                 dict_display [(gk, Term "p" "flux");
                               (gk, Term "p" "flux");
                               (ek, Law "lam_u" div_u_lam)])]) d);
  (* discretize with Biot *)
  _ ← emit (BiotDiscretize key_m key_f (Grid.grid_id g));
  ret (key_m, key_f).

End WithParent.

End Example3Setup.

(** ** Concrete inputs used to run the embedding *)

Module Sample.

(** One square cell [0,1]x[0,1]: four nodes, four faces (bottom, top,
    left, right), two sub-faces per face. *)
Definition square : Grid.t :=
  {| Grid.grid_id := 0; Grid.dim := 2; Grid.num_cells := 1;
     Grid.face_centers := [[0.5; 0.5; 0; 1]; [0; 1; 0.5; 0.5]; [0; 0; 0; 0]]%float;
     Grid.nodes := [[0; 1; 0; 1]; [0; 0; 1; 1]; [0; 0; 0; 0]]%float;
     Grid.fno_unique := [0; 0; 1; 1; 2; 2; 3; 3]%nat |}.

(** A segment [0,1]: a grid of dimension one with two faces. *)
Definition segment : Grid.t :=
  {| Grid.grid_id := 1; Grid.dim := 1; Grid.num_cells := 1;
     Grid.face_centers := [[0; 1]; [0; 0]; [0; 0]]%float;
     Grid.nodes := [[0; 1]; [0; 0]; [0; 0]]%float;
     Grid.fno_unique := [0; 1]%nat |}.

Definition mortar : MortarGrid.t := {| MortarGrid.num_cells := 2 |}.

Definition no_data : Data :=
  {| PARAMETERS := None; PRIMARY_VARIABLES := None; DISCRETIZATION := None;
     COUPLING_DISCRETIZATION := None; DISCRETIZATION_MATRICES := None |}.

(** A parent method that initialises the parameter dictionaries of one
    keyword on the grid and of one on the edge, and returns both. *)
Definition parent_with (key_m key_c : string)
    (g : Grid.t) (mg : MortarGrid.t) : M (string * string) :=
  (d ← get_data_node;
   _ ← put_data_node (initialize_data key_m ∅ d);
   d ← get_data_edge;
   _ ← put_data_edge (initialize_data key_c ∅ d);
   ret (key_m, key_c))%M.

Definition setup : Setup := Example3Setup.init 1e9 [] "example_3".

Definition world : World :=
  {| self := setup; data_node := no_data; data_edge := no_data; trace := [] |}.

(** The setup after [set_parameters] recorded its keywords. *)
Definition ready : Setup := set_key_f "flow" (set_key_m "mech" setup).

(** The setup after [set_parameters] recorded its keywords, when the
    parent returned 'flow' as the mechanics keyword. *)
Definition ready_flow : Setup := set_key_f "flow" (set_key_m "flow" setup).

(** The world after [set_parameters] ran on the square. *)
Definition after : World :=
  (Example3Setup.set_parameters (parent_with "mech" "mech") square mortar world).2.

(** A parent method that returns a keyword without initialising any
    parameter dictionary. *)
Definition parent_bare (key : string)
    (g : Grid.t) (mg : MortarGrid.t) : M (string * string) :=
  ret (key, key).

(** A parent method that initialises the parameter dictionary of the
    grid only, with one elastic parameter in it and one parameter under
    another keyword. *)
Definition parent_node_only (key : string)
    (g : Grid.t) (mg : MortarGrid.t) : M (string * string) :=
  (d ← get_data_node;
   _ ← put_data_node
         (initialize_data "transport" (dict_display [("porosity", VFloat 0.2)])
            (initialize_data key (dict_display [("friction", VFloat 0.5)]) d));
   ret (key, key))%M.


End Sample.

(** ** Derived descriptions used in the statements *)

(** The array [u_bc] after the two masked assignments. *)
Definition loaded (dim n : nat) (mask : list bool) (x y : float) : list (list float) :=
  <[1%nat := zip_with (λ (b : bool) old, if b then y else old) mask (np.zeros n)]>
    (<[0%nat := zip_with (λ (b : bool) old, if b then x else old) mask (np.zeros n)]>
       (np.zeros2 dim n)).

(** The exception of the keyword check of [set_parameters]. *)
Definition inconsistent_keyword : Exception :=
  ValueError "Mechanics keyword must equal contact keyword".

(** A computation is [quiet] when it leaves [self] alone and never raises
    the exception of the keyword check. *)
Definition quiet {A} (m : M A) : Prop :=
  ∀ w r w', m w = (r, w') → self w' = self w ∧ r ≠ Raise inconsistent_keyword.

(** The world [set_parameters] leaves when no step raises: [w1] is the
    world after the parent call, [P] and [Pe] the parameter dictionaries
    of the grid and the edge, [pm] and [pc] those of the keyword. *)
Definition registered (g : Grid.t) (mg : MortarGrid.t) (km : string) (w1 : World)
    (P Pe : gmap string (gmap string Value)) (pm pc : gmap string Value)
    (bc_flow : BoundaryCondition) (p_bc u_bc0 u_bc : list float) : World :=
  let self2 := set_key_f "flow" (set_key_m km (self w1)) in
  let dt := (end_time self2 / 20)%float in
  let gk : nat + nat * nat := inl (Grid.grid_id g) in
  let ek : nat + nat * nat := inr (Grid.grid_id g, Grid.grid_id g) in
  let d1 := <["biot_alpha" := VInt 1]> pm in
  let d2 := <["time_step" := VFloat dt]> d1 in
  let d3 := <["bc_values" := VArray u_bc]> d2 in
  let d4 := <["state" := VDict (dict_display
              [("displacement", VArray (np.zeros (Grid.dim g * Grid.num_cells g)));
               ("bc_values", VArray u_bc0)])]> d3 in
  let P1 := <[km := d1]> P in
  let P2 := <[km := d2]> P1 in
  let P3 := <[km := d3]> P2 in
  let P4 := <[km := d4]> P3 in
  {| self := self2;
     data_node :=
       set_DISCRETIZATION
         (dict_display
            [("u", dict_display [("div_sigma", Mpsa km)]);
             ("p", dict_display [("flux", ImplicitMpfa "flow");
                                 ("mass", ImplicitMassMatrix "flow");
                                 ("stab", BiotStabilization "flow")]);
             ("u_p", dict_display [("grad_p", GradP km)]);
             ("p_u", dict_display [("div_u", DivD km)])])
         (set_PRIMARY_VARIABLES
            (dict_display [("u", dict_display [("cells", Grid.dim g)]);
                           ("p", dict_display [("cells", 1%nat)])])
            (initialize_data "flow"
               (dict_display
                  [("bc", VBoundary bc_flow);
                   ("bc_values", VArray p_bc);
                   ("second_order_tensor",
                     VTensor {| tensor_dim := Grid.dim g;
                                kxx := (λ v, (v / (viscosity self2 / pressure_scale self2))%float)
                                       <$> ((λ o, (k_ self2 * o)%float)
                                            <$> np.ones (Grid.num_cells g)) |});
                   ("mass_weight", VFloat (S_ self2));
                   ("aperture", VArray (np.ones (Grid.num_cells g)));
                   ("biot_alpha", VInt 1);
                   ("time_step", VFloat dt);
                   ("state", VArray (np.zeros (Grid.num_cells g)))])
               (set_PARAMETERS P4 (set_PARAMETERS P3 (set_PARAMETERS P2
                  (set_PARAMETERS P1 (data_node w1)))))));
     data_edge :=
       set_COUPLING_DISCRETIZATION
         (dict_display
            [("robin_discretization",
               dict_display [(gk, Term "u" "div_sigma");
                             (gk, Term "u" "div_sigma");
                             (ek, Law "lam_u" (RobinContact km (Mpsa km)))]);
             ("p_contribution_to_displacement",
               dict_display [(gk, Term "p" "flux");
                             (gk, Term "p" "flux");
                             (ek, Law "lam_u" (RobinContactBiotPressure km (GradP km)))]);
             ("lam_u_contr_2_div_u",
               dict_display [(gk, Term "p" "flux");
                             (gk, Term "p" "flux");
                             (ek, Law "lam_u" (DivU_StressMortar km (DivD km)))])])
         (set_PRIMARY_VARIABLES
            (dict_display [("lam_u", dict_display [("cells", Grid.dim g)])])
            (set_PARAMETERS
               (<[km := <["state" := VArray (np.zeros (Grid.dim g * MortarGrid.num_cells mg))]> pc]> Pe)
               (data_edge w1)));
     trace := trace w1 ++ [BiotDiscretize km "flow" (Grid.grid_id g)] |}.

(** What has to go well for [set_parameters] to reach its last line. *)
Definition prepared (super_set_parameters : Grid.t → MortarGrid.t → M (string * string))
    (g : Grid.t) (mg : MortarGrid.t) (w : World) (km : string) (w1 : World)
    (P Pe : gmap string (gmap string Value)) (pm pc : gmap string Value)
    (bc_flow : BoundaryCondition) (p_bc u_bc0 u_bc : list float) : Prop :=
  let self2 := set_key_f "flow" (set_key_m km (self w1)) in
  let dt := (end_time (self w1) / 20)%float in
  super_set_parameters g mg w = (Ok (km, km), w1) ∧
  PARAMETERS (data_node w1) = Some P ∧ P !! km = Some pm ∧
  PARAMETERS (data_edge w1) = Some Pe ∧ Pe !! km = Some pc ∧
  (∃ east, Example3Setup.upper_faces g 0 = Ok east) ∧
  (∃ west, Example3Setup.lower_faces g 0 = Ok west ∧
     Example3Setup.boundary_to_sub_boundary
       {| bc_grid := Grid.grid_id g; bc_faces := west; bc_cond := "dir" |}
       (SubcellTopology.make g) = Ok bc_flow) ∧
  Example3Setup.bc_values self2 g dt "flow" = Ok p_bc ∧
  Example3Setup.bc_values self2 g 0 km = Ok u_bc0 ∧
  Example3Setup.bc_values self2 g dt km = Ok u_bc.

(** * Properties *)

(** ** Comparisons of binary64 numbers *)

Lemma SFcompare_swap (a b : spec_float) :
  SFcompare b a = CompOpp <$> SFcompare a b.
Proof.
  destruct a as [sa|sa| |sa ma ea], b as [sb|sb| |sb mb eb]; simpl;
    try reflexivity; try (destruct sa; reflexivity);
    try (destruct sb; reflexivity);
    destruct sa, sb; simpl; try reflexivity.
  - rewrite (Z.compare_antisym eb ea).
    destruct (eb ?= ea)%Z; simpl; try reflexivity.
    change (Pos.compare_cont Eq mb ma) with (mb ?= ma)%positive.
    change (Pos.compare_cont Eq ma mb) with (ma ?= mb)%positive.
    rewrite (Pos.compare_antisym mb ma). rewrite CompOpp_involutive. reflexivity.
  - rewrite (Z.compare_antisym eb ea).
    destruct (eb ?= ea)%Z; simpl; try reflexivity.
    change (Pos.compare_cont Eq mb ma) with (mb ?= ma)%positive.
    change (Pos.compare_cont Eq ma mb) with (ma ?= mb)%positive.
    f_equal. apply Pos.compare_antisym.
Qed.

(** [h <= t] excludes [t < h]; this is how "t >= end_time/2" selects the
    second branch of the loading ramp. *)
Lemma leb_not_ltb (h t : float) : (h <=? t)%float = true → (t <? h)%float = false.
Proof.
  rewrite leb_spec, ltb_spec. unfold SFleb, SFltb.
  rewrite (SFcompare_swap (Prim2SF h) (Prim2SF t)).
  destruct (SFcompare (Prim2SF h) (Prim2SF t)) as [[]|]; simpl; congruence.
Qed.

(** ** numpy operations *)

Lemma take_Ok {A} (a : list A) (idx : list nat) :
  Forall (λ i, i < length a)%nat idx →
  ∃ xs, np.take a idx = Ok xs ∧ length xs = length idx ∧
        ∀ j i, idx !! j = Some i → xs !! j = a !! i.
Proof.
  induction 1 as [|i idx Hi _ (xs & Hxs & Hlen & Hlook)]; simpl.
  - exists []. repeat split. intros j i Hj. discriminate.
  - destruct (lookup_lt_is_Some_2 a i Hi) as [x Hx]. rewrite Hx, Hxs. simpl.
    exists (x :: xs). repeat split; [simpl; congruence|].
    intros [|j] i' Hj; simpl in *; [congruence | auto].
Qed.

Lemma setitem_row_mask_Ok (a : list (list float)) r mask v row :
  a !! r = Some row → length mask = length row →
  np.setitem_row_mask a r mask v =
    Ok (<[r := zip_with (λ (b : bool) old, if b then v else old) mask row]> a).
Proof.
  intros Hr Hlen. unfold np.setitem_row_mask. rewrite Hr.
  destruct (decide _); [reflexivity | contradiction].
Qed.

Lemma setitem_row_mask_missing (a : list (list float)) r mask v :
  (length a ≤ r)%nat →
  np.setitem_row_mask a r mask v = Raise (IndexError "index out of bounds for axis 0").
Proof.
  intros Hr. unfold np.setitem_row_mask.
  rewrite (lookup_ge_None_2 a r Hr). reflexivity.
Qed.

(** Entry [(i, j)] of a rectangular array sits at position
    [j * rows + i] of its column-major flattening. *)
Lemma ravel_F_lookup (a : list (list float)) (n i j : nat) (row : list float) (x : float) :
  Forall (λ r, length r = n) a →
  a !! i = Some row → row !! j = Some x →
  np.ravel_F a !! (j * length a + i)%nat = Some x.
Proof.
  intros Hrect Hi Hj. unfold np.ravel_F.
  assert (Hn : np.ncols a = n).
  { destruct a as [|r0 a']; [discriminate|]. simpl. by inversion Hrect. }
  assert (Hjn : (j < n)%nat).
  { rewrite <- (proj1 (Forall_lookup _ _) Hrect i row Hi).
    by apply lookup_lt_Some with x. }
  assert (Hin : (i < length a)%nat) by (by apply lookup_lt_Some with row).
  apply join_lookup_Some_same_length'; [|done|].
  - apply Forall_fmap, Forall_forall. intros c _. simpl. by rewrite length_fmap.
  - exists ((λ r : list float, nth j r 0%float) <$> a). split.
    + rewrite list_lookup_fmap, Hn, lookup_seq_lt by done. reflexivity.
    + rewrite list_lookup_fmap, Hi. simpl. f_equal.
      by apply nth_lookup_Some with (d := 0%float) in Hj.
Qed.

Lemma ravel_F_length (a : list (list float)) :
  length (np.ravel_F a) = (np.ncols a * length a)%nat.
Proof.
  unfold np.ravel_F.
  assert (Hcols : ∀ cols : list nat,
    length (mjoin ((λ j, (λ row : list float, nth j row 0%float) <$> a) <$> cols))
    = (length cols * length a)%nat).
  { induction cols as [|c cols IH]; [reflexivity|].
    rewrite fmap_cons. simpl. rewrite length_app, length_fmap, IH. reflexivity. }
  rewrite Hcols, length_seq. reflexivity.
Qed.

(** ** Well-formed grids *)

Lemma well_formed_spec (g : Grid.t) :
  Grid.well_formed g = true →
  length (Grid.face_centers g) = 3%nat ∧
  length (Grid.nodes g) = 3%nat ∧
  Forall (λ row, length row = np.ncols (Grid.face_centers g)) (Grid.face_centers g) ∧
  Forall (λ row, length row = np.ncols (Grid.nodes g)) (Grid.nodes g) ∧
  (0 < np.ncols (Grid.nodes g))%nat ∧
  Forall (λ f, f < np.ncols (Grid.face_centers g))%nat (Grid.fno_unique g) ∧
  (Grid.dim g ≤ 3)%nat.
Proof.
  unfold Grid.well_formed. rewrite !andb_true_iff, !bool_decide_eq_true.
  rewrite !forallb_forall.
  intros ((((((H1 & H2) & H3) & H4) & H5) & H6) & H7).
  repeat split; try done; apply Forall_forall; intros x Hx;
    apply list_elem_of_In in Hx.
  - specialize (H3 x Hx). by apply bool_decide_eq_true in H3.
  - specialize (H4 x Hx). by apply bool_decide_eq_true in H4.
  - specialize (H6 x Hx). by apply bool_decide_eq_true in H6.
Qed.

(** A row index in [-1, 2] selects a row of a three-row array. *)
Lemma getitem_row {A} (a : list (list A)) (n : nat) (i : Z) :
  length a = 3%nat → Forall (λ row, length row = n) a →
  (-1 ≤ i ≤ 2)%Z →
  ∃ row, np.getitem a i = Ok row ∧ length row = n.
Proof.
  intros Hlen Hrect Hi.
  destruct a as [|r0 [|r1 [|r2 [|]]]]; try discriminate.
  inversion Hrect as [|? ? H0 Hrect1]; subst.
  inversion Hrect1 as [|? ? H1 Hrect2]; subst.
  inversion Hrect2 as [|? ? H2 _]; subst.
  assert (i = -1 ∨ i = 0 ∨ i = 1 ∨ i = 2)%Z as [-> | [-> | [-> | ->]]] by lia;
    unfold np.getitem; simpl; eauto.
Qed.

Lemma max_Ok (a : list float) : (0 < length a)%nat → ∃ m, np.max a = Ok m.
Proof. destruct a; simpl; [lia | eauto]. Qed.

Lemma min_Ok (a : list float) : (0 < length a)%nat → ∃ m, np.min a = Ok m.
Proof. destruct a; simpl; [lia | eauto]. Qed.

Lemma upper_faces_Ok (g : Grid.t) (i : Z) :
  Grid.well_formed g = true → (-1 ≤ i ≤ 2)%Z →
  ∃ mask, Example3Setup.upper_faces g i = Ok mask ∧
          length mask = np.ncols (Grid.face_centers g).
Proof.
  intros (Hf & Hn & Hfr & Hnr & Hpos & _)%well_formed_spec Hi.
  destruct (getitem_row _ _ i Hf Hfr Hi) as (fc & Hfc & Hfclen).
  destruct (getitem_row _ _ i Hn Hnr Hi) as (nd & Hnd & Hndlen).
  destruct (max_Ok nd) as [m Hm]; [lia|].
  unfold Example3Setup.upper_faces. rewrite Hfc, Hnd. simpl. rewrite Hm. simpl.
  eexists. split; [reflexivity|]. by rewrite length_fmap.
Qed.

Lemma lower_faces_Ok (g : Grid.t) (i : Z) :
  Grid.well_formed g = true → (-1 ≤ i ≤ 2)%Z →
  ∃ mask, Example3Setup.lower_faces g i = Ok mask ∧
          length mask = np.ncols (Grid.face_centers g).
Proof.
  intros (Hf & Hn & Hfr & Hnr & Hpos & _)%well_formed_spec Hi.
  destruct (getitem_row _ _ i Hf Hfr Hi) as (fc & Hfc & Hfclen).
  destruct (getitem_row _ _ i Hn Hnr Hi) as (nd & Hnd & Hndlen).
  destruct (min_Ok nd) as [m Hm]; [lia|].
  unfold Example3Setup.lower_faces. rewrite Hfc, Hnd. simpl. rewrite Hm. simpl.
  eexists. split; [reflexivity|]. by rewrite length_fmap.
Qed.

Lemma top_Ok (g : Grid.t) :
  Grid.well_formed g = true →
  ∃ mask, Example3Setup.top g = Ok mask ∧
          length mask = np.ncols (Grid.face_centers g).
Proof.
  intros Hwf. apply upper_faces_Ok; [done|].
  apply well_formed_spec in Hwf. lia.
Qed.

(** ** [bc_values] *)

Lemma masked_row_lookup (mask : list bool) (n j : nat) (b : bool) (v : float) :
  length mask = n → mask !! j = Some b →
  zip_with (λ (b : bool) old, if b then v else old) mask (np.zeros n) !! j
  = Some (if b then v else 0%float).
Proof.
  intros Hlen Hj. rewrite lookup_zip_with, Hj. simpl.
  unfold np.zeros. rewrite lookup_replicate_2; [reflexivity|].
  rewrite <- Hlen. by apply lookup_lt_Some with b.
Qed.

Lemma loaded_rect (dim n : nat) (mask : list bool) (x y : float) :
  length mask = n → Forall (λ r, length r = n) (loaded dim n mask x y).
Proof.
  intros Hlen. unfold loaded.
  assert (Hz : length (np.zeros n) = n) by apply length_replicate.
  apply Forall_insert; [apply Forall_insert|].
  - apply Forall_replicate. exact Hz.
  - rewrite length_zip_with. lia.
  - rewrite length_zip_with. lia.
Qed.

Lemma loaded_length (dim n : nat) (mask : list bool) (x y : float) :
  length (loaded dim n mask x y) = dim.
Proof. unfold loaded. rewrite !length_insert. apply length_replicate. Qed.

(** Entry [(i, j)] of the loaded array. *)
Lemma loaded_lookup (dim n : nat) (mask : list bool) (x y : float) (i j : nat) (b : bool) :
  length mask = n → (2 ≤ dim)%nat → (i < dim)%nat → mask !! j = Some b →
  ∃ row, loaded dim n mask x y !! i = Some row ∧
         row !! j = Some (if b then match i with 0 => x | 1 => y | _ => 0%float end
                          else 0%float).
Proof.
  intros Hlen Hdim Hi Hj. unfold loaded.
  assert (Hjn : (j < n)%nat) by (rewrite <- Hlen; by apply lookup_lt_Some with b).
  destruct i as [|[|i]].
  - eexists. split.
    + rewrite list_lookup_insert_ne by done.
      apply list_lookup_insert_eq. unfold np.zeros2. rewrite length_replicate. lia.
    + by apply masked_row_lookup.
  - eexists. split.
    + apply list_lookup_insert_eq. rewrite length_insert.
      unfold np.zeros2. rewrite length_replicate. lia.
    + by apply masked_row_lookup.
  - exists (np.zeros n). split.
    + rewrite !list_lookup_insert_ne by done.
      unfold np.zeros2. by apply lookup_replicate_2.
    + unfold np.zeros. rewrite lookup_replicate_2 by done. by destruct b.
Qed.

Section BcValues.

Variables (self : Setup) (g : Grid.t) (t : float) (km : string).
Hypothesis Hwf : Grid.well_formed g = true.
Hypothesis Hkm : key_m self = Some km.

(** The sub-face mask [top[s_t.fno_unique]] exists on a well-formed grid. *)
Lemma subface_mask_Ok :
  ∃ tp mask, Example3Setup.top g = Ok tp ∧
             np.take tp (Grid.fno_unique g) = Ok mask ∧
             length mask = (length (Grid.fno_unique g)) ∧
             ∀ j f, Grid.fno_unique g !! j = Some f → mask !! j = tp !! f.
Proof.
  destruct (top_Ok g Hwf) as (tp & Htp & Hlen).
  destruct (take_Ok tp (Grid.fno_unique g)) as (mask & Hmask & Hmlen & Hlook).
  { rewrite Hlen. by apply well_formed_spec in Hwf as (_&_&_&_&_&?&_). }
  exists tp, mask. eauto.
Qed.

(** With the mechanics keyword, on a grid of dimension two or three. *)
Lemma bc_values_mechanics tp mask :
  Example3Setup.top g = Ok tp →
  np.take tp (Grid.fno_unique g) = Ok mask →
  length mask = (length (Grid.fno_unique g)) →
  (2 ≤ Grid.dim g)%nat →
  Example3Setup.bc_values self g t km =
    Ok (np.ravel_F (loaded (Grid.dim g) (length (Grid.fno_unique g)) mask
                      (Example3Setup.displacement self t).1
                      (Example3Setup.displacement self t).2)).
Proof.
  intros Htp Hmask Hlen Hdim. unfold Example3Setup.bc_values.
  rewrite Htp, Hkm. simpl. rewrite bool_decide_eq_true_2 by done.
  destruct (Example3Setup.displacement self t) as [x y]. simpl.
  rewrite Hmask. simpl.
  rewrite (setitem_row_mask_Ok _ 0 mask x (np.zeros (length (Grid.fno_unique g)))); cycle 1.
  { unfold np.zeros2. apply lookup_replicate_2. lia. }
  { unfold np.zeros. by rewrite length_replicate. }
  simpl.
  rewrite (setitem_row_mask_Ok _ 1 mask y (np.zeros (length (Grid.fno_unique g)))); cycle 1.
  { rewrite list_lookup_insert_ne by done.
    unfold np.zeros2. apply lookup_replicate_2. lia. }
  { unfold np.zeros. by rewrite length_replicate. }
  reflexivity.
Qed.

(** With the mechanics keyword, on a grid of dimension zero or one: the
    assignment to row 1 (or row 0) of [u_bc] is out of bounds. *)
Lemma bc_values_mechanics_low_dim :
  (Grid.dim g < 2)%nat →
  Example3Setup.bc_values self g t km =
    Raise (IndexError "index out of bounds for axis 0").
Proof.
  intros Hdim. unfold Example3Setup.bc_values.
  destruct subface_mask_Ok as (tp & mask & Htp & Hmask & Hlen & _).
  rewrite Htp, Hkm. simpl. rewrite bool_decide_eq_true_2 by done.
  destruct (Example3Setup.displacement self t) as [x y]. simpl.
  rewrite Hmask. simpl.
  destruct (Grid.dim g) as [|[|d]]; [reflexivity| |lia].
  rewrite (setitem_row_mask_Ok _ 0 mask x (np.zeros (length (Grid.fno_unique g)))); cycle 1.
  { reflexivity. }
  { unfold np.zeros. by rewrite length_replicate. }
  reflexivity.
Qed.

(** With a flow keyword that is not the mechanics keyword. *)
Lemma bc_values_flow kf :
  key_f self = Some kf → kf ≠ km →
  Example3Setup.bc_values self g t kf = Ok (np.zeros (length (Grid.fno_unique g))).
Proof.
  intros Hkf Hne. unfold Example3Setup.bc_values.
  destruct (top_Ok g Hwf) as (tp & Htp & _).
  rewrite Htp, Hkm. simpl. rewrite bool_decide_eq_false_2 by done.
  rewrite Hkf. simpl. rewrite bool_decide_eq_true_2 by done. reflexivity.
Qed.

(** With any other keyword. *)
Lemma bc_values_unknown kf key :
  key_f self = Some kf → key ≠ km → key ≠ kf →
  Example3Setup.bc_values self g t key =
    Raise (ValueError ("Unknown keyword: " +:+ key)).
Proof.
  intros Hkf Hm Hf. unfold Example3Setup.bc_values.
  destruct (top_Ok g Hwf) as (tp & Htp & _).
  rewrite Htp, Hkm. simpl. rewrite bool_decide_eq_false_2 by done.
  rewrite Hkf. simpl. rewrite bool_decide_eq_false_2 by done. reflexivity.
Qed.

End BcValues.

(** ** [set_parameters] *)

Lemma node_param_set_Ok (w : World) P keyword name v dict :
  PARAMETERS (data_node w) = Some P → P !! keyword = Some dict →
  node_param_set keyword name v w =
    (Ok tt, {| self := self w;
               data_node := set_PARAMETERS (<[keyword := <[name := v]> dict]> P) (data_node w);
               data_edge := data_edge w; trace := trace w |}).
Proof.
  intros HP Hk. unfold node_param_set, bind, get_data_node, lift, param_set, put_data_node.
  rewrite HP, Hk. reflexivity.
Qed.

Lemma edge_param_set_Ok (w : World) P keyword name v dict :
  PARAMETERS (data_edge w) = Some P → P !! keyword = Some dict →
  edge_param_set keyword name v w =
    (Ok tt, {| self := self w; data_node := data_node w;
               data_edge := set_PARAMETERS (<[keyword := <[name := v]> dict]> P) (data_edge w);
               trace := trace w |}).
Proof.
  intros HP Hk. unfold edge_param_set, bind, get_data_edge, lift, param_set, put_data_edge.
  rewrite HP, Hk. reflexivity.
Qed.

Lemma bind_Ok {A B} (m : M A) (f : A → M B) (w w' : World) (a : A) :
  m w = (Ok a, w') → bind m f w = f a w'.
Proof. intros H. unfold bind. rewrite H. reflexivity. Qed.

Lemma bind_lift_Ok {A B} (r : result A) (f : A → M B) (w : World) (a : A) :
  r = Ok a → bind (lift r) f w = f a w.
Proof. intros ->. reflexivity. Qed.

Ltac lift_step :=
  match goal with
  | |- bind (lift ?r) ?f ?w = _ → _ =>
      let H := fresh "Hstep" in
      destruct r eqn:H;
      [ rewrite (bind_lift_Ok _ f w _ eq_refl)
      | unfold bind at 1, lift at 1; discriminate ]
  end.

Section SetParameters.

Variable super_set_parameters : Grid.t → MortarGrid.t → M (string * string).
Variables (g : Grid.t) (mg : MortarGrid.t) (w : World).

Lemma set_parameters_run km w1 P Pe pm pc bc_flow p_bc u_bc0 u_bc :
  prepared super_set_parameters g mg w km w1 P Pe pm pc bc_flow p_bc u_bc0 u_bc →
  Example3Setup.set_parameters super_set_parameters g mg w =
    (Ok (km, "flow"), registered g mg km w1 P Pe pm pc bc_flow p_bc u_bc0 u_bc).
Proof.
  intros (Hparent & HP & HPm & HPe & HPc & [east Heast] & (west & Hwest & Hbc)
          & Hp & Hu0 & Hu).
  unfold Example3Setup.set_parameters.
  unfold bind at 1. rewrite Hparent.
  rewrite bool_decide_eq_true_2 by done.
  cbn [negb].
  cbn [bind get_self put_self self data_node data_edge trace].
  change (end_time (set_key_f "flow" (set_key_m km (self w1))))
    with (end_time (self w1)).
  rewrite (bind_lift_Ok _ _ _ _ Heast), (bind_lift_Ok _ _ _ _ Hwest).
  rewrite (bind_lift_Ok _ _ _ _ Hbc), (bind_lift_Ok _ _ _ _ Hp).
  rewrite (bind_lift_Ok _ _ _ _ Hu0), (bind_lift_Ok _ _ _ _ Hu).
  erewrite bind_Ok; [|by eapply node_param_set_Ok].
  erewrite bind_Ok; [|eapply node_param_set_Ok; [reflexivity|apply lookup_insert_eq]].
  erewrite bind_Ok; [|eapply node_param_set_Ok; [reflexivity|apply lookup_insert_eq]].
  erewrite bind_Ok; [|eapply node_param_set_Ok; [reflexivity|apply lookup_insert_eq]].
  erewrite bind_Ok; [|by eapply edge_param_set_Ok].
  reflexivity.
Qed.

Lemma set_parameters_inv r w' :
  Example3Setup.set_parameters super_set_parameters g mg w = (Ok r, w') →
  ∃ km w1 P Pe pm pc bc_flow p_bc u_bc0 u_bc,
    prepared super_set_parameters g mg w km w1 P Pe pm pc bc_flow p_bc u_bc0 u_bc ∧
    r = (km, "flow") ∧
    w' = registered g mg km w1 P Pe pm pc bc_flow p_bc u_bc0 u_bc.
Proof.
  intros Hrun.
  assert (Hprep : ∃ km w1 P Pe pm pc bc_flow p_bc u_bc0 u_bc,
    prepared super_set_parameters g mg w km w1 P Pe pm pc bc_flow p_bc u_bc0 u_bc).
  { revert Hrun. unfold Example3Setup.set_parameters.
    unfold bind at 1.
    destruct (super_set_parameters g mg w) as [[[km kc]|e] w1] eqn:Hparent;
      [|discriminate].
    destruct (bool_decide (km = kc)) eqn:Hk; [|discriminate].
    apply bool_decide_eq_true in Hk. subst kc.
    cbn [negb].
    cbn [bind get_self put_self self data_node data_edge trace].
    change (end_time (set_key_f "flow" (set_key_m km (self w1))))
      with (end_time (self w1)).
    do 6 lift_step.
    destruct (PARAMETERS (data_node w1)) as [P|] eqn:HP; cycle 1.
    { unfold bind at 1, node_param_set, bind, get_data_node, lift, param_set.
      cbn [data_node]. rewrite HP. discriminate. }
    destruct (P !! km) as [pm|] eqn:HPm; cycle 1.
    { unfold bind at 1, node_param_set, bind, get_data_node, lift, param_set.
      cbn [data_node]. rewrite HP, HPm. discriminate. }
    erewrite bind_Ok; [|by eapply node_param_set_Ok].
    erewrite bind_Ok; [|eapply node_param_set_Ok; [reflexivity|apply lookup_insert_eq]].
    erewrite bind_Ok; [|eapply node_param_set_Ok; [reflexivity|apply lookup_insert_eq]].
    erewrite bind_Ok; [|eapply node_param_set_Ok; [reflexivity|apply lookup_insert_eq]].
    destruct (PARAMETERS (data_edge w1)) as [Pe|] eqn:HPe; cycle 1.
    { unfold bind at 1, edge_param_set, bind, get_data_edge, lift, param_set.
      cbn [data_edge]. rewrite HPe. discriminate. }
    destruct (Pe !! km) as [pc|] eqn:HPc; cycle 1.
    { unfold bind at 1, edge_param_set, bind, get_data_edge, lift, param_set.
      cbn [data_edge]. rewrite HPe, HPc. discriminate. }
    intros _.
    match goal with
    | Hb : Example3Setup.boundary_to_sub_boundary _ _ = Ok ?b,
      H1 : Example3Setup.bc_values _ _ _ "flow" = Ok ?p,
      H2 : Example3Setup.bc_values _ _ 0 _ = Ok ?u0,
      H3 : Example3Setup.bc_values _ _ (_ / _) km = Ok ?u |- _ =>
        exists km, w1, P, Pe, pm, pc, b, p, u0, u
    end.
    unfold prepared. repeat split; eauto. }
  destruct Hprep as (km & w1 & P & Pe & pm & pc & bc_flow & p_bc & u_bc0 & u_bc & Hprep).
  exists km, w1, P, Pe, pm, pc, bc_flow, p_bc, u_bc0, u_bc.
  rewrite (set_parameters_run _ _ _ _ _ _ _ _ _ _ Hprep) in Hrun.
  inversion Hrun. done.
Qed.

(** On a well-formed grid of dimension two or three, after a parent
    call that returned one keyword twice and initialised its parameter
    dictionaries, no step of [set_parameters] raises. *)
Lemma set_parameters_prepared km w1 P Pe pm pc :
  super_set_parameters g mg w = (Ok (km, km), w1) →
  PARAMETERS (data_node w1) = Some P → P !! km = Some pm →
  PARAMETERS (data_edge w1) = Some Pe → Pe !! km = Some pc →
  Grid.well_formed g = true → (2 ≤ Grid.dim g)%nat →
  ∃ bc_flow p_bc u_bc0 u_bc,
    prepared super_set_parameters g mg w km w1 P Pe pm pc bc_flow p_bc u_bc0 u_bc.
Proof.
  intros Hparent HP HPm HPe HPc Hwf Hdim.
  set (self2 := set_key_f "flow" (set_key_m km (self w1))).
  assert (Hkm : key_m self2 = Some km) by reflexivity.
  assert (Hkf : key_f self2 = Some "flow") by reflexivity.
  destruct (upper_faces_Ok g 0 Hwf) as (east & Heast & _); [lia|].
  destruct (lower_faces_Ok g 0 Hwf) as (west & Hwest & Hwlen); [lia|].
  destruct (take_Ok west (Grid.fno_unique g)) as (faces & Hfaces & _).
  { rewrite Hwlen. by apply well_formed_spec in Hwf as (_&_&_&_&_&?&_). }
  destruct (subface_mask_Ok g Hwf) as (tp & mask & Htp & Hmask & Hlen & _).
  pose proof (λ t, bc_values_mechanics self2 g t km Hkm tp mask Htp Hmask Hlen Hdim)
    as Hmech.
  assert (∃ p_bc, Example3Setup.bc_values self2 g (end_time (self w1) / 20) "flow"
                  = Ok p_bc) as [p_bc Hp].
  { destruct (decide ("flow" = km)) as [<-|Hne].
    - eexists. apply Hmech.
    - eexists. by apply (bc_values_flow self2 g _ km). }
  assert (Hbc : Example3Setup.boundary_to_sub_boundary
            {| bc_grid := Grid.grid_id g; bc_faces := west; bc_cond := "dir" |}
            (SubcellTopology.make g)
          = Ok {| bc_grid := Grid.grid_id g; bc_faces := faces; bc_cond := "dir" |}).
  { unfold Example3Setup.boundary_to_sub_boundary.
    cbn [bc_faces SubcellTopology.fno_unique SubcellTopology.make].
    rewrite Hfaces. reflexivity. }
  eexists _, p_bc, _, _. unfold prepared. repeat split; eauto.
Qed.

End SetParameters.

(** ** Which exceptions the helpers can raise *)

Ltac other_exception := unfold inconsistent_keyword; discriminate.

Lemma getitem_raises {A} (a : list A) i e :
  np.getitem a i = Raise e → e = IndexError "index out of bounds".
Proof. unfold np.getitem. repeat case_match; congruence. Qed.

Lemma take_raises {A} (a : list A) idx e :
  np.take a idx = Raise e → e = IndexError "index out of bounds".
Proof.
  induction idx as [|i idx IH]; simpl; [discriminate|].
  destruct (a !! i); [|congruence].
  destruct (np.take a idx); simpl; [discriminate|]. intros [= <-]. by apply IH.
Qed.

Lemma upper_faces_raises g i e :
  Example3Setup.upper_faces g i = Raise e → e ≠ inconsistent_keyword.
Proof.
  unfold Example3Setup.upper_faces, result_bind, np.max.
  repeat case_match; intros; simplify_eq;
    try (match goal with H : np.getitem _ _ = Raise _ |- _ =>
           apply getitem_raises in H; subst end); other_exception.
Qed.

Lemma lower_faces_raises g i e :
  Example3Setup.lower_faces g i = Raise e → e ≠ inconsistent_keyword.
Proof.
  unfold Example3Setup.lower_faces, result_bind, np.min.
  repeat case_match; intros; simplify_eq;
    try (match goal with H : np.getitem _ _ = Raise _ |- _ =>
           apply getitem_raises in H; subst end); other_exception.
Qed.

Lemma boundary_to_sub_boundary_raises bc s_t e :
  Example3Setup.boundary_to_sub_boundary bc s_t = Raise e → e ≠ inconsistent_keyword.
Proof.
  unfold Example3Setup.boundary_to_sub_boundary, result_bind.
  case_match; [discriminate|]. intros [= <-].
  match goal with H : np.take _ _ = Raise _ |- _ => apply take_raises in H; subst end.
  other_exception.
Qed.

Lemma setitem_row_mask_raises a r mask v e :
  np.setitem_row_mask a r mask v = Raise e → e ≠ inconsistent_keyword.
Proof.
  unfold np.setitem_row_mask. repeat case_match; intros; simplify_eq; other_exception.
Qed.

Lemma bc_values_raises self g t key e :
  Example3Setup.bc_values self g t key = Raise e → e ≠ inconsistent_keyword.
Proof.
  unfold Example3Setup.bc_values, Example3Setup.top, Example3Setup.attr, result_bind.
  destruct (Example3Setup.upper_faces g _) as [tp|e0] eqn:Htop.
  2:{ intros [= <-]. by eapply upper_faces_raises. }
  destruct (key_m self) as [km|]; [|intros [= <-]; other_exception].
  destruct (bool_decide (key = km)).
  - destruct (Example3Setup.displacement self t) as [x y].
    destruct (np.take tp _) as [mask|e1] eqn:Hmask.
    2:{ intros [= <-]. apply take_raises in Hmask. subst. other_exception. }
    destruct (np.setitem_row_mask _ 0 mask x) as [u1|e1] eqn:H1.
    2:{ intros [= <-]. by eapply setitem_row_mask_raises. }
    destruct (np.setitem_row_mask u1 1 mask y) as [u2|e2] eqn:H2.
    2:{ intros [= <-]. by eapply setitem_row_mask_raises. }
    discriminate.
  - destruct (key_f self) as [kf|]; [|intros [= <-]; other_exception].
    destruct (bool_decide (key = kf)); [discriminate|].
    intros [= <-]. other_exception.
Qed.

Lemma param_set_raises keyword name v d e :
  param_set keyword name v d = Raise e → e ≠ inconsistent_keyword.
Proof.
  unfold param_set. repeat case_match; intros; simplify_eq; other_exception.
Qed.

Lemma quiet_bind {A B} (m : M A) (f : A → M B) :
  quiet m → (∀ a, quiet (f a)) → quiet (bind m f).
Proof.
  intros Hm Hf w r w'. unfold bind.
  destruct (m w) as [[a|e] w0] eqn:Hmw; destruct (Hm _ _ _ Hmw) as [Hs Hr].
  - intros Hfa. destruct (Hf a _ _ _ Hfa) as [Hs' Hr']. split; congruence.
  - intros Heq. inversion Heq; subst. split; [assumption|].
    intros [= ->]. by apply Hr.
Qed.

Lemma quiet_ret {A} (a : A) : quiet (ret a).
Proof. intros w r w' [= <- <-]. done. Qed.

Lemma quiet_lift {A} (r : result A) :
  (∀ e, r = Raise e → e ≠ inconsistent_keyword) → quiet (lift r).
Proof. intros Hr w r' w' [= <- <-]. split; [done|]. intros ->. by eapply Hr. Qed.

Lemma quiet_get_self : quiet get_self.
Proof. intros w r w' [= <- <-]. done. Qed.

Lemma quiet_get_data_node : quiet get_data_node.
Proof. intros w r w' [= <- <-]. done. Qed.

Lemma quiet_get_data_edge : quiet get_data_edge.
Proof. intros w r w' [= <- <-]. done. Qed.

Lemma quiet_put_data_node d : quiet (put_data_node d).
Proof. intros w r w' [= <- <-]. done. Qed.

Lemma quiet_put_data_edge d : quiet (put_data_edge d).
Proof. intros w r w' [= <- <-]. done. Qed.

Lemma quiet_emit e : quiet (emit e).
Proof. intros w r w' [= <- <-]. done. Qed.

Lemma quiet_node_param_set keyword name v : quiet (node_param_set keyword name v).
Proof.
  unfold node_param_set.
  apply quiet_bind; [apply quiet_get_data_node|]. intros d.
  apply quiet_bind; [|intros; apply quiet_put_data_node].
  apply quiet_lift. apply param_set_raises.
Qed.

Lemma quiet_edge_param_set keyword name v : quiet (edge_param_set keyword name v).
Proof.
  unfold edge_param_set.
  apply quiet_bind; [apply quiet_get_data_edge|]. intros d.
  apply quiet_bind; [|intros; apply quiet_put_data_edge].
  apply quiet_lift. apply param_set_raises.
Qed.

Create HintDb quiet.
#[local] Hint Resolve quiet_ret quiet_get_self quiet_get_data_node quiet_get_data_edge
  quiet_put_data_node quiet_put_data_edge quiet_emit quiet_node_param_set
  quiet_edge_param_set : quiet.
#[local] Hint Resolve upper_faces_raises lower_faces_raises
  boundary_to_sub_boundary_raises bc_values_raises param_set_raises : quiet.

Ltac quiet_steps :=
  repeat first
    [ solve [eauto with quiet]
    | apply quiet_lift; solve [eauto with quiet]
    | apply quiet_bind; [|intros] ].

(** Once the keywords agree, [set_parameters] records them on the setup
    and whatever happens next is not the exception of the check. *)
Lemma set_parameters_past_check super_set_parameters g mg w km w1 r w' :
  super_set_parameters g mg w = (Ok (km, km), w1) →
  Example3Setup.set_parameters super_set_parameters g mg w = (r, w') →
  self w' = set_key_f "flow" (set_key_m km (self w1)) ∧
  r ≠ Raise inconsistent_keyword.
Proof.
  intros Hparent. unfold Example3Setup.set_parameters.
  unfold bind at 1. rewrite Hparent.
  rewrite bool_decide_eq_true_2 by done.
  cbn [negb].
  cbn [bind get_self put_self self data_node data_edge trace].
  match goal with |- ?m ?w0 = _ → _ =>
    assert (Hq : quiet m) by quiet_steps; intros Hrun; apply (Hq w0 r w' Hrun) end.
Qed.

(** ** Reading the registered world *)

Lemma parameters_add_discretization_matrix_keyword keyword d :
  PARAMETERS (add_discretization_matrix_keyword keyword d) = PARAMETERS d.
Proof. unfold add_discretization_matrix_keyword. by repeat case_match. Qed.

Lemma param_get_initialize_data_same keyword specified d name v :
  specified !! name = Some v →
  param_get keyword name (initialize_data keyword specified d) = Some v.
Proof.
  intros Hv. unfold initialize_data, param_get.
  rewrite parameters_add_discretization_matrix_keyword.
  destruct (PARAMETERS d) as [Pd|]; [destruct (Pd !! keyword) as [old|]|];
    cbn [PARAMETERS set_PARAMETERS mbind option_bind].
  - rewrite lookup_insert_eq. cbn. by apply lookup_union_Some_l.
  - rewrite lookup_insert_eq. done.
  - rewrite lookup_singleton_eq. done.
Qed.

Lemma param_get_initialize_data_other keyword specified d keyword' name :
  keyword' ≠ keyword →
  is_Some (PARAMETERS d) →
  param_get keyword' name (initialize_data keyword specified d)
  = param_get keyword' name d.
Proof.
  intros Hne [Pd HPd]. unfold initialize_data, param_get.
  rewrite parameters_add_discretization_matrix_keyword, HPd.
  destruct (Pd !! keyword) as [old|];
    cbn [PARAMETERS set_PARAMETERS mbind option_bind];
    by rewrite lookup_insert_ne.
Qed.

Lemma param_get_set_DISCRETIZATION keyword name v d :
  param_get keyword name (set_DISCRETIZATION v d) = param_get keyword name d.
Proof. reflexivity. Qed.

Lemma param_get_set_PRIMARY_VARIABLES keyword name v d :
  param_get keyword name (set_PRIMARY_VARIABLES v d) = param_get keyword name d.
Proof. reflexivity. Qed.

Section Registered.

Variables (g : Grid.t) (mg : MortarGrid.t) (km : string) (w1 : World).
Variables (P Pe : gmap string (gmap string Value)) (pm pc : gmap string Value).
Variables (bc_flow : BoundaryCondition) (p_bc u_bc0 u_bc : list float).

#[local] Abbreviation final := (registered g mg km w1 P Pe pm pc bc_flow p_bc u_bc0 u_bc).

Lemma registered_self : self final = set_key_f "flow" (set_key_m km (self w1)).
Proof. reflexivity. Qed.

(** Parameters stored under the flow keyword. *)
Lemma registered_flow_params :
  param_get "flow" "biot_alpha" (data_node final) = Some (VInt 1) ∧
  param_get "flow" "time_step" (data_node final)
    = Some (VFloat (end_time (self w1) / 20)) ∧
  param_get "flow" "state" (data_node final)
    = Some (VArray (np.zeros (Grid.num_cells g))) ∧
  param_get "flow" "bc_values" (data_node final) = Some (VArray p_bc).
Proof.
  unfold registered. cbn [data_node].
  rewrite !param_get_set_DISCRETIZATION, !param_get_set_PRIMARY_VARIABLES.
  repeat split;
    apply (param_get_initialize_data_same "flow");
    unfold dict_display; cbn [foldl fst snd]; by simplify_map_eq.
Qed.

(** Parameters stored under a mechanics keyword other than the flow one. *)
Lemma registered_mechanics_params :
  km ≠ "flow" →
  param_get km "biot_alpha" (data_node final) = Some (VInt 1) ∧
  param_get km "time_step" (data_node final)
    = Some (VFloat (end_time (self w1) / 20)) ∧
  param_get km "bc_values" (data_node final) = Some (VArray u_bc) ∧
  param_get km "state" (data_node final)
    = Some (VDict (dict_display
         [("displacement", VArray (np.zeros (Grid.dim g * Grid.num_cells g)));
          ("bc_values", VArray u_bc0)])).
Proof.
  intros Hne. unfold registered. cbn [data_node].
  rewrite !param_get_set_DISCRETIZATION, !param_get_set_PRIMARY_VARIABLES.
  rewrite !(param_get_initialize_data_other "flow") by (done || by eexists).
  unfold param_get. cbn [PARAMETERS set_PARAMETERS mbind option_bind].
  rewrite lookup_insert_eq. cbn.
  repeat split; by simplify_map_eq.
Qed.

Lemma registered_edge_state :
  param_get km "state" (data_edge final)
  = Some (VArray (np.zeros (Grid.dim g * MortarGrid.num_cells mg))).
Proof.
  unfold registered, param_get.
  cbn [data_edge PARAMETERS set_COUPLING_DISCRETIZATION set_PRIMARY_VARIABLES
       set_PARAMETERS mbind option_bind].
  rewrite lookup_insert_eq. cbn. by simplify_map_eq.
Qed.

End Registered.

(** [set_parameters] reaches its last line on a well-formed grid of
    dimension two or three, after a parent call that returned one keyword
    twice and initialised its parameter dictionaries. *)
Lemma set_parameters_completes super_set_parameters g mg w km w1 P Pe pm pc :
  super_set_parameters g mg w = (Ok (km, km), w1) →
  PARAMETERS (data_node w1) = Some P → P !! km = Some pm →
  PARAMETERS (data_edge w1) = Some Pe → Pe !! km = Some pc →
  Grid.well_formed g = true → (2 ≤ Grid.dim g)%nat →
  ∃ w', Example3Setup.set_parameters super_set_parameters g mg w
        = (Ok (km, "flow"), w').
Proof.
  intros Hparent HP HPm HPe HPc Hwf Hdim.
  destruct (set_parameters_prepared super_set_parameters g mg w km w1 P Pe pm pc)
    as (bc_flow & p_bc & u_bc0 & u_bc & Hprep); try done.
  eexists. by apply set_parameters_run.
Qed.

(** The run on the sample square. *)
Lemma sample_run :
  Example3Setup.set_parameters (Sample.parent_with "mech" "mech")
    Sample.square Sample.mortar Sample.world
  = (Ok ("mech", "flow"), Sample.after).
Proof. vm_compute. reflexivity. Qed.

(** * The claims *)

(** C1: when the keywords the parent returns differ, [set_parameters]
    raises the keyword exception at once, in the world the parent call
    left (nothing registered, nothing discretized); when they are equal it
    goes on: both keywords are recorded on the setup and the outcome is
    never that exception. *)
Theorem C1_keyword_check super_set_parameters g mg w km kc w1 :
  super_set_parameters g mg w = (Ok (km, kc), w1) →
  (km ≠ kc →
     Example3Setup.set_parameters super_set_parameters g mg w
     = (Raise (ValueError "Mechanics keyword must equal contact keyword"), w1)) ∧
  (km = kc →
     ∃ r w', Example3Setup.set_parameters super_set_parameters g mg w = (r, w') ∧
       r ≠ Raise (ValueError "Mechanics keyword must equal contact keyword") ∧
       key_m (self w') = Some km ∧ key_f (self w') = Some "flow").
Proof.
  intros Hparent. split.
  - intros Hne. unfold Example3Setup.set_parameters.
    unfold bind at 1. rewrite Hparent.
    rewrite bool_decide_eq_false_2 by done. reflexivity.
  - intros <-.
    destruct (Example3Setup.set_parameters super_set_parameters g mg w)
      as [r w'] eqn:Hrun.
    destruct (set_parameters_past_check _ _ _ _ _ _ _ _ Hparent Hrun) as [Hself Hr].
    exists r, w'. rewrite Hself. done.
Qed.

Lemma C1_keyword_check_witness :
  Example3Setup.set_parameters (Sample.parent_with "mech" "contact")
    Sample.square Sample.mortar Sample.world
  = (Raise (ValueError "Mechanics keyword must equal contact keyword"),
     (Sample.parent_with "mech" "contact" Sample.square Sample.mortar Sample.world).2).
Proof.
  refine (proj1 (C1_keyword_check (Sample.parent_with "mech" "contact")
                   Sample.square Sample.mortar Sample.world "mech" "contact" _ _) _).
  - reflexivity.
  - discriminate.
Defined.

(** C2 (what the code does): in every completed call the grid entry of
    both couplings names the term [("p", "flux")], which the
    discretization table of the grid resolves to the implicit MPFA flux
    operator; the table has no term [grad_p] or [div_u] under [p]. *)
Theorem C2_couplings_name_flux super_set_parameters g mg w r w' :
  Example3Setup.set_parameters super_set_parameters g mg w = (Ok r, w') →
  ∃ couplings table,
    COUPLING_DISCRETIZATION (data_edge w') = Some couplings ∧
    DISCRETIZATION (data_node w') = Some table ∧
    (couplings !! "p_contribution_to_displacement"
       ≫= λ c, c !! inl (Grid.grid_id g)) = Some (Term "p" "flux") ∧
    (couplings !! "lam_u_contr_2_div_u"
       ≫= λ c, c !! inl (Grid.grid_id g)) = Some (Term "p" "flux") ∧
    (table !! "p" ≫= λ terms, terms !! "flux") = Some (ImplicitMpfa r.2) ∧
    (table !! "p" ≫= λ terms, terms !! "grad_p") = None ∧
    (table !! "p" ≫= λ terms, terms !! "div_u") = None.
Proof.
  intros Hrun.
  destruct (set_parameters_inv _ _ _ _ _ _ Hrun)
    as (km & w1 & P & Pe & pm & pc & bc_flow & p_bc & u_bc0 & u_bc & _ & -> & ->).
  eexists _, _. split; [reflexivity|]. split; [reflexivity|].
  unfold dict_display. cbn [foldl fst snd].
  repeat split; by simplify_map_eq.
Qed.

Lemma C2_couplings_name_flux_witness :
  ∃ couplings,
    COUPLING_DISCRETIZATION (data_edge Sample.after) = Some couplings ∧
    (couplings !! "p_contribution_to_displacement"
       ≫= λ c, c !! inl (Grid.grid_id Sample.square)) = Some (Term "p" "flux").
Proof.
  destruct (C2_couplings_name_flux (Sample.parent_with "mech" "mech")
              Sample.square Sample.mortar Sample.world
              ("mech", "flow") Sample.after sample_run)
    as (couplings & table & Hc & _ & H1 & _).
  exists couplings. split; [exact Hc | exact H1].
Defined.

(** C3 (amended): on a well-formed grid of dimension at least two, at
    every time [t >= 0], [bc_values] with the mechanics keyword returns a vector
    with [g.dim] entries per unique sub-face; on a sub-face of a top face
    the first two entries are [(x, y)] and any further entry is zero, on
    every other sub-face all entries are zero; [(x, y)] is
    [(0.005 * t / (end_time / 2), -0.002 * t / (end_time / 2))] when
    [t < end_time / 2] and [(0.005, -0.002)] when [t >= end_time / 2]. *)
Theorem C3_mechanics_boundary_values self g t km :
  Grid.well_formed g = true → key_m self = Some km → (2 ≤ Grid.dim g)%nat →
  (0 <=? t)%float = true →
  ∃ v tp x y,
    Example3Setup.bc_values self g t km = Ok v ∧
    Example3Setup.top g = Ok tp ∧
    ((t <? end_time self / 2)%float = true →
       x = (0.005 * t / (end_time self / 2))%float ∧
       y = (-0.002 * t / (end_time self / 2))%float) ∧
    ((end_time self / 2 <=? t)%float = true →
       x = 0.005%float ∧ y = (-0.002)%float) ∧
    length v = (length (Grid.fno_unique g) * Grid.dim g)%nat ∧
    ∀ (j f : nat) (b : bool) (i : nat),
      Grid.fno_unique g !! j = Some f → tp !! f = Some b → (i < Grid.dim g)%nat →
      v !! (j * Grid.dim g + i)%nat
      = Some (if b then match i with 0 => x | 1 => y | _ => 0%float end
              else 0%float).
Proof.
  intros Hwf Hkm Hdim _.
  destruct (subface_mask_Ok g Hwf) as (tp & mask & Htp & Hmask & Hlen & Hlook).
  pose proof (bc_values_mechanics self g t km Hkm tp mask Htp Hmask Hlen Hdim) as Hv.
  assert (Hxy : ((t <? end_time self / 2)%float = true →
                   (Example3Setup.displacement self t).1
                   = (0.005 * t / (end_time self / 2))%float ∧
                   (Example3Setup.displacement self t).2
                   = (-0.002 * t / (end_time self / 2))%float) ∧
                ((end_time self / 2 <=? t)%float = true →
                   (Example3Setup.displacement self t).1 = 0.005%float ∧
                   (Example3Setup.displacement self t).2 = (-0.002)%float)).
  { unfold Example3Setup.displacement. split.
    - by intros ->.
    - by intros ->%leb_not_ltb. }
  revert Hv Hxy.
  generalize (Example3Setup.displacement self t).1
             (Example3Setup.displacement self t).2.
  intros x y Hv [Hramp Hhold].
  pose proof (loaded_rect (Grid.dim g) _ mask x y Hlen) as Hrect.
  pose proof (loaded_length (Grid.dim g) (length (Grid.fno_unique g)) mask x y)
    as Hrows.
  exists (np.ravel_F (loaded (Grid.dim g) (length (Grid.fno_unique g)) mask x y)),
    tp, x, y.
  split; [exact Hv|]. split; [exact Htp|]. split; [exact Hramp|].
  split; [exact Hhold|]. split.
  - rewrite ravel_F_length, Hrows. f_equal.
    destruct (loaded _ _ _ _ _) as [|row rows] eqn:Hl.
    + simpl in Hrows. lia.
    + by inversion Hrect.
  - intros j f b i Hj Hf Hi.
    assert (Hb : mask !! j = Some b) by (by rewrite (Hlook j f Hj)).
    destruct (loaded_lookup (Grid.dim g) _ mask x y i j b Hlen Hdim Hi Hb)
      as (row & Hrow & Hentry).
    rewrite <- Hrows at 1.
    by apply ravel_F_lookup with (n := length (Grid.fno_unique g)) (row := row).
Qed.

Lemma C3_mechanics_boundary_values_witness :
  ∃ v, Example3Setup.bc_values Sample.ready Sample.square 0.01 "mech" = Ok v ∧
       v !! 4%nat = Some (0.005 * 0.01 / (end_time Sample.ready / 2))%float ∧
       v !! 5%nat = Some (-0.002 * 0.01 / (end_time Sample.ready / 2))%float.
Proof.
  destruct (C3_mechanics_boundary_values Sample.ready Sample.square 0.01 "mech")
    as (v & tp & x & y & Hv & Htp & Hramp & _ & _ & Hentries);
    [reflexivity | reflexivity | simpl; lia | reflexivity |].
  exists v. split; [exact Hv|].
  destruct Hramp as [-> ->]; [reflexivity|].
  assert (Htop : tp = [false; true; false; false]).
  { assert (Ok tp = Ok [false; true; false; false]) as [= ->]; [|done].
    rewrite <- Htp. vm_compute. reflexivity. }
  subst tp.
  split.
  - exact (Hentries 2%nat 1%nat true 0%nat eq_refl eq_refl (le_S _ _ (le_n 1))).
  - exact (Hentries 2%nat 1%nat true 1%nat eq_refl eq_refl (le_n 2)).
Defined.

(** C3 as stated fails on a grid of dimension one: on the segment, at
    the time 0.01 >= 0, the call with the mechanics keyword raises. *)
Lemma C3_counterexample :
  Grid.well_formed Sample.segment = true ∧
  key_m Sample.ready = Some "mech" ∧
  (0 <=? 0.01)%float = true ∧
  Example3Setup.bc_values Sample.ready Sample.segment 0.01 "mech"
  = Raise (IndexError "index out of bounds for axis 0").
Proof. repeat split; vm_compute; reflexivity. Qed.

(** C4: the discretization table of the grid holds the six operators and
    nothing else: the stress divergence (MPSA) for [u]; flux (implicit
    MPFA), mass storage and Biot stabilization for [p]; the [grad_p]
    coupling from pressure into the displacement equation; the [div_u]
    coupling from displacement into the mass balance. First part: in
    every completed call; second part: when the call completes. *)
Theorem C4_bulk_discretization super_set_parameters g mg w :
  (∀ r w', Example3Setup.set_parameters super_set_parameters g mg w = (Ok r, w') →
     ∃ table, DISCRETIZATION (data_node w') = Some table ∧
       ∀ var term d,
         (∃ terms, table !! var = Some terms ∧ terms !! term = Some d) ↔
         (var = "u" ∧ term = "div_sigma" ∧ d = Mpsa r.1) ∨
         (var = "p" ∧ term = "flux" ∧ d = ImplicitMpfa r.2) ∨
         (var = "p" ∧ term = "mass" ∧ d = ImplicitMassMatrix r.2) ∨
         (var = "p" ∧ term = "stab" ∧ d = BiotStabilization r.2) ∨
         (var = "u_p" ∧ term = "grad_p" ∧ d = GradP r.1) ∨
         (var = "p_u" ∧ term = "div_u" ∧ d = DivD r.1)) ∧
  (∀ km w1 P Pe pm pc,
     super_set_parameters g mg w = (Ok (km, km), w1) →
     PARAMETERS (data_node w1) = Some P → P !! km = Some pm →
     PARAMETERS (data_edge w1) = Some Pe → Pe !! km = Some pc →
     Grid.well_formed g = true → (2 ≤ Grid.dim g)%nat →
     ∃ w', Example3Setup.set_parameters super_set_parameters g mg w
           = (Ok (km, "flow"), w')).
Proof.
  split; [|apply set_parameters_completes].
  intros r w' Hrun.
  destruct (set_parameters_inv _ _ _ _ _ _ Hrun)
    as (km & w1 & P & Pe & pm & pc & bc_flow & p_bc & u_bc0 & u_bc & _ & -> & ->).
  eexists. split; [reflexivity|].
  intros var term d. unfold dict_display. cbn [foldl fst snd]. split.
  - intros (terms & Hv & Ht).
    repeat (apply lookup_insert_Some in Hv as [[<- <-]|[? Hv]]);
      try (by rewrite lookup_empty in Hv);
      repeat (apply lookup_insert_Some in Ht as [[<- <-]|[? Ht]]);
      try (by rewrite lookup_empty in Ht); tauto.
  - intros [(-> & -> & ->)|[(-> & -> & ->)|[(-> & -> & ->)|[(-> & -> & ->)
             |[(-> & -> & ->)|(-> & -> & ->)]]]]];
      eexists; (split; [by simplify_map_eq | by simplify_map_eq]).
Qed.

Lemma C4_bulk_discretization_witness :
  ∃ table, DISCRETIZATION (data_node Sample.after) = Some table ∧
    ∃ terms, table !! "u_p" = Some terms ∧ terms !! "grad_p" = Some (GradP "mech").
Proof.
  destruct (proj1 (C4_bulk_discretization (Sample.parent_with "mech" "mech")
                     Sample.square Sample.mortar Sample.world)
              ("mech", "flow") Sample.after sample_run) as (table & Htable & Hiff).
  exists table. split; [exact Htable|].
  apply Hiff. do 4 right. left. repeat split.
Defined.

(** C5: the edge declares one primary variable, [lam_u], with [g.dim]
    components per mortar cell; exactly three couplings are registered,
    and in each of them the edge entry carries its interface law under
    [lam_u] (the Robin contact law, the pressure contribution to the
    displacement, the mortar contribution to div u), no entry naming
    another mortar variable. First part: in every completed call; second
    part: when the call completes. *)
Theorem C5_mortar_variable super_set_parameters g mg w :
  (∀ r w', Example3Setup.set_parameters super_set_parameters g mg w = (Ok r, w') →
     ∃ variables couplings,
       PRIMARY_VARIABLES (data_edge w') = Some variables ∧
       COUPLING_DISCRETIZATION (data_edge w') = Some couplings ∧
       (∀ name layout,
          variables !! name = Some layout ↔
          name = "lam_u" ∧ layout = {["cells" := Grid.dim g]}) ∧
       (∀ name c,
          couplings !! name = Some c →
          ∃ law,
            c !! inr (Grid.grid_id g, Grid.grid_id g) = Some (Law "lam_u" law) ∧
            (∀ key var law', c !! key = Some (Law var law') → var = "lam_u") ∧
            ((name = "robin_discretization" ∧ law = RobinContact r.1 (Mpsa r.1)) ∨
             (name = "p_contribution_to_displacement"
              ∧ law = RobinContactBiotPressure r.1 (GradP r.1)) ∨
             (name = "lam_u_contr_2_div_u"
              ∧ law = DivU_StressMortar r.1 (DivD r.1)))) ∧
       is_Some (couplings !! "robin_discretization") ∧
       is_Some (couplings !! "p_contribution_to_displacement") ∧
       is_Some (couplings !! "lam_u_contr_2_div_u")) ∧
  (∀ km w1 P Pe pm pc,
     super_set_parameters g mg w = (Ok (km, km), w1) →
     PARAMETERS (data_node w1) = Some P → P !! km = Some pm →
     PARAMETERS (data_edge w1) = Some Pe → Pe !! km = Some pc →
     Grid.well_formed g = true → (2 ≤ Grid.dim g)%nat →
     ∃ w', Example3Setup.set_parameters super_set_parameters g mg w
           = (Ok (km, "flow"), w')).
Proof.
  split; [|apply set_parameters_completes].
  intros r w' Hrun.
  destruct (set_parameters_inv _ _ _ _ _ _ Hrun)
    as (km & w1 & P & Pe & pm & pc & bc_flow & p_bc & u_bc0 & u_bc & _ & -> & ->).
  eexists _, _. split; [reflexivity|]. split; [reflexivity|].
  unfold dict_display. cbn [foldl fst snd]. split; [|split].
  - intros name layout. rewrite !insert_empty. split.
    + intros [<- <-]%lookup_singleton_Some. done.
    + intros [-> ->]. apply lookup_singleton_eq.
  - intros name c Hc.
    repeat (apply lookup_insert_Some in Hc as [[<- <-]|[? Hc]]);
      try (by rewrite lookup_empty in Hc);
      (eexists; split; [apply lookup_insert_eq|]; split;
       [ intros key var law' Hk;
         repeat (apply lookup_insert_Some in Hk as [[<- Hk]|[? Hk]]);
           try (by rewrite lookup_empty in Hk); congruence
       | cbn; tauto ]).
  - repeat split; by simplify_map_eq.
Qed.

Lemma C5_mortar_variable_witness :
  ∃ variables,
    PRIMARY_VARIABLES (data_edge Sample.after) = Some variables ∧
    variables !! "lam_u" = Some {["cells" := 2%nat]}.
Proof.
  destruct (proj1 (C5_mortar_variable (Sample.parent_with "mech" "mech")
                     Sample.square Sample.mortar Sample.world)
              ("mech", "flow") Sample.after sample_run)
    as (variables & couplings & Hv & _ & Hiff & _).
  exists variables. split; [exact Hv|]. apply Hiff. split; reflexivity.
Defined.

(** C6: the grid declares the displacement [u] with [g.dim] components
    per cell and the pressure [p] with one, and no other variable. First
    part: in every completed call, whatever the grid; second part: when
    the call completes. *)
Theorem C6_primary_variables super_set_parameters g mg w :
  (∀ r w', Example3Setup.set_parameters super_set_parameters g mg w = (Ok r, w') →
     ∃ variables,
       PRIMARY_VARIABLES (data_node w') = Some variables ∧
       ∀ name layout,
         variables !! name = Some layout ↔
         (name = "u" ∧ layout = {["cells" := Grid.dim g]}) ∨
         (name = "p" ∧ layout = {["cells" := 1%nat]})) ∧
  (∀ km w1 P Pe pm pc,
     super_set_parameters g mg w = (Ok (km, km), w1) →
     PARAMETERS (data_node w1) = Some P → P !! km = Some pm →
     PARAMETERS (data_edge w1) = Some Pe → Pe !! km = Some pc →
     Grid.well_formed g = true → (2 ≤ Grid.dim g)%nat →
     ∃ w', Example3Setup.set_parameters super_set_parameters g mg w
           = (Ok (km, "flow"), w')).
Proof.
  split; [|apply set_parameters_completes].
  intros r w' Hrun.
  destruct (set_parameters_inv _ _ _ _ _ _ Hrun)
    as (km & w1 & P & Pe & pm & pc & bc_flow & p_bc & u_bc0 & u_bc & _ & -> & ->).
  eexists. split; [reflexivity|].
  intros name layout. unfold dict_display. cbn [foldl fst snd]. split.
  - intros Hv.
    repeat (apply lookup_insert_Some in Hv as [[<- <-]|[? Hv]]);
      try (by rewrite lookup_empty in Hv); rewrite insert_empty; tauto.
  - intros [[-> ->]|[-> ->]]; rewrite <- insert_empty; by simplify_map_eq.
Qed.

Lemma C6_primary_variables_witness :
  ∃ variables,
    PRIMARY_VARIABLES (data_node Sample.after) = Some variables ∧
    variables !! "u" = Some {["cells" := 2%nat]} ∧
    variables !! "p" = Some {["cells" := 1%nat]}.
Proof.
  destruct (proj1 (C6_primary_variables (Sample.parent_with "mech" "mech")
                     Sample.square Sample.mortar Sample.world)
              ("mech", "flow") Sample.after sample_run)
    as (variables & Hv & Hiff).
  exists variables. split; [exact Hv|].
  split; apply Hiff; [left | right]; split; reflexivity.
Defined.

(** C7 (amended): with a flow keyword that is not the mechanics keyword,
    [bc_values] returns the zero vector with one entry per unique
    sub-face, on every well-formed grid and at every time; every completed
    call of [set_parameters] whose two keywords differ has stored the zero
    displacement, the zero pressure and the zero mortar variable as
    state; and the call completes under the conditions of the third part. *)
Theorem C7_starts_from_rest :
  (∀ self g t km kf,
     Grid.well_formed g = true →
     key_m self = Some km → key_f self = Some kf → kf ≠ km →
     Example3Setup.bc_values self g t kf
     = Ok (replicate (length (Grid.fno_unique g)) 0%float)) ∧
  (∀ super_set_parameters g mg w r w',
     Example3Setup.set_parameters super_set_parameters g mg w = (Ok r, w') →
     r.1 ≠ r.2 →
     (∃ state,
        param_get r.1 "state" (data_node w') = Some (VDict state) ∧
        state !! "displacement"
        = Some (VArray (replicate (Grid.dim g * Grid.num_cells g) 0%float))) ∧
     param_get r.2 "state" (data_node w')
     = Some (VArray (replicate (Grid.num_cells g) 0%float)) ∧
     param_get r.1 "state" (data_edge w')
     = Some (VArray (replicate (Grid.dim g * MortarGrid.num_cells mg) 0%float))) ∧
  (∀ super_set_parameters g mg w km w1 P Pe pm pc,
     super_set_parameters g mg w = (Ok (km, km), w1) →
     PARAMETERS (data_node w1) = Some P → P !! km = Some pm →
     PARAMETERS (data_edge w1) = Some Pe → Pe !! km = Some pc →
     Grid.well_formed g = true → (2 ≤ Grid.dim g)%nat →
     ∃ w', Example3Setup.set_parameters super_set_parameters g mg w
           = (Ok (km, "flow"), w')).
Proof.
  split; [|split].
  - intros self g t km kf Hwf Hkm Hkf Hne. by apply (bc_values_flow self g t km).
  - intros super_set_parameters g mg w r w' Hrun.
    destruct (set_parameters_inv _ _ _ _ _ _ Hrun)
      as (km & w1 & P & Pe & pm & pc & bc_flow & p_bc & u_bc0 & u_bc & _ & -> & ->).
    cbn [fst snd]. intros Hne.
    destruct (registered_flow_params g mg km w1 P Pe pm pc bc_flow p_bc u_bc0 u_bc)
      as (_ & _ & Hs & _).
    destruct (registered_mechanics_params g mg km w1 P Pe pm pc bc_flow p_bc u_bc0 u_bc Hne)
      as (_ & _ & _ & Hs').
    split; [|split].
    + eexists. split; [exact Hs'|].
      unfold dict_display. cbn [foldl fst snd]. by simplify_map_eq.
    + exact Hs.
    + apply registered_edge_state.
  - intros super_set_parameters. apply set_parameters_completes.
Qed.

Lemma C7_starts_from_rest_witness :
  Example3Setup.bc_values Sample.ready Sample.square 0.03 "flow"
  = Ok (replicate 8 0%float) ∧
  param_get "flow" "state" (data_node Sample.after)
  = Some (VArray (replicate 1 0%float)).
Proof.
  split.
  - apply (proj1 C7_starts_from_rest Sample.ready Sample.square 0.03%float
             "mech" "flow"); [reflexivity | reflexivity | reflexivity | discriminate].
  - refine (proj1 (proj2 (proj1 (proj2 C7_starts_from_rest)
             (Sample.parent_with "mech" "mech") Sample.square Sample.mortar
             Sample.world ("mech", "flow") Sample.after sample_run _)));
      discriminate.
Defined.

(** C7 as stated fails when the parent returns 'flow' as the mechanics
    keyword: the first branch of [bc_values] answers the flow keyword with
    the displacement values (16 entries, 0.005 on the top at time 0.03),
    and the flow dictionary written last replaces the mechanics state, so
    that no displacement is stored. *)
Lemma C7_counterexample :
  Grid.well_formed Sample.square = true ∧
  key_f Sample.ready_flow = Some "flow" ∧
  (∃ v, Example3Setup.bc_values Sample.ready_flow Sample.square 0.03 "flow" = Ok v ∧
        length v = 16%nat ∧ v !! 4%nat = Some 0.005%float) ∧
  (∃ w', Example3Setup.set_parameters (Sample.parent_with "flow" "flow")
           Sample.square Sample.mortar Sample.world = (Ok ("flow", "flow"), w') ∧
         param_get "flow" "state" (data_node w') = Some (VArray [0%float])).
Proof.
  split; [reflexivity|]. split; [reflexivity|]. split.
  - eexists. split; [vm_compute; reflexivity|]. split; reflexivity.
  - eexists. split; [vm_compute; reflexivity|]. vm_compute. reflexivity.
Qed.

(** C8: [initial_condition] returns a zero displacement with [g.dim]
    rows of [g.num_cells] entries, a zero jump with [g.dim] rows of
    [mg.num_cells] entries, and a traction with the shape of [nc] whose
    every entry is -100 times the entry of [nc]. *)
Theorem C8_initial_guess (g : Grid.t) (mg : MortarGrid.t) (nc : list (list float)) :
  ∃ u0 uc Tc,
    Example3Setup.initial_condition g mg nc = (u0, uc, Tc) ∧
    length u0 = Grid.dim g ∧
    (∀ i row, u0 !! i = Some row → row = replicate (Grid.num_cells g) 0%float) ∧
    length uc = Grid.dim g ∧
    (∀ i row, uc !! i = Some row →
       row = replicate (MortarGrid.num_cells mg) 0%float) ∧
    length Tc = length nc ∧
    (∀ i row, nc !! i = Some row →
       ∃ traction, Tc !! i = Some traction ∧ length traction = length row ∧
         ∀ j v, row !! j = Some v → traction !! j = Some (-100 * v)%float).
Proof.
  eexists _, _, _. split; [reflexivity|].
  unfold np.zeros2, np.zeros. repeat split.
  - apply length_replicate.
  - by intros i row [-> _]%lookup_replicate.
  - apply length_replicate.
  - by intros i row [-> _]%lookup_replicate.
  - apply length_fmap.
  - intros i row Hrow. eexists. split; [by rewrite list_lookup_fmap, Hrow|].
    split; [apply length_fmap|].
    intros j v Hv. by rewrite list_lookup_fmap, Hv.
Qed.

(** C9: the Biot coefficient and the time step stored under the mechanics
    keyword are those stored under the flow keyword: the integer 1 and
    [end_time / 20]. First part: in every completed call; second part:
    when the call completes. *)
Theorem C9_biot_data_agree super_set_parameters g mg w :
  (∀ r w', Example3Setup.set_parameters super_set_parameters g mg w = (Ok r, w') →
     param_get r.1 "biot_alpha" (data_node w') = Some (VInt 1) ∧
     param_get r.2 "biot_alpha" (data_node w') = Some (VInt 1) ∧
     param_get r.1 "time_step" (data_node w')
       = Some (VFloat (end_time (self w') / 20)) ∧
     param_get r.2 "time_step" (data_node w')
       = Some (VFloat (end_time (self w') / 20))) ∧
  (∀ km w1 P Pe pm pc,
     super_set_parameters g mg w = (Ok (km, km), w1) →
     PARAMETERS (data_node w1) = Some P → P !! km = Some pm →
     PARAMETERS (data_edge w1) = Some Pe → Pe !! km = Some pc →
     Grid.well_formed g = true → (2 ≤ Grid.dim g)%nat →
     ∃ w', Example3Setup.set_parameters super_set_parameters g mg w
           = (Ok (km, "flow"), w')).
Proof.
  split; [|apply set_parameters_completes].
  intros r w' Hrun.
  destruct (set_parameters_inv _ _ _ _ _ _ Hrun)
    as (km & w1 & P & Pe & pm & pc & bc_flow & p_bc & u_bc0 & u_bc & _ & -> & ->).
  cbn [fst snd]. rewrite registered_self.
  change (end_time (set_key_f "flow" (set_key_m km (self w1))))
    with (end_time (self w1)).
  destruct (registered_flow_params g mg km w1 P Pe pm pc bc_flow p_bc u_bc0 u_bc)
    as (Ha & Ht & _).
  destruct (decide (km = "flow")) as [->|Hne]; [done|].
  destruct (registered_mechanics_params g mg km w1 P Pe pm pc bc_flow p_bc u_bc0 u_bc Hne)
    as (Ha' & Ht' & _).
  done.
Qed.

Lemma C9_biot_data_agree_witness :
  param_get "mech" "time_step" (data_node Sample.after)
  = param_get "flow" "time_step" (data_node Sample.after) ∧
  param_get "mech" "biot_alpha" (data_node Sample.after)
  = param_get "flow" "biot_alpha" (data_node Sample.after).
Proof.
  destruct (proj1 (C9_biot_data_agree (Sample.parent_with "mech" "mech")
                     Sample.square Sample.mortar Sample.world)
              ("mech", "flow") Sample.after sample_run)
    as (Ha & Ha' & Ht & Ht').
  cbn [fst snd] in *. split; congruence.
Defined.

(** C10 (amended): once [set_parameters] has recorded both keywords, on
    a well-formed grid [bc_values] raises a ValueError exactly when its
    keyword is neither of the two; with the mechanics keyword, at a time
    [t >= 0] or with [end_time / 2] not zero (so that the divisions of the
    ramp have a non-zero divisor or are not reached), it returns a vector
    on a grid of dimension at least two and raises an IndexError on a grid
    of lower dimension; with a flow keyword other than the mechanics
    keyword it returns a vector on every grid. *)
Theorem C10_bc_values_keywords self g t km kf :
  Grid.well_formed g = true → key_m self = Some km → key_f self = Some kf →
  (∀ key, (∃ msg, Example3Setup.bc_values self g t key = Raise (ValueError msg))
          ↔ key ≠ km ∧ key ≠ kf) ∧
  ((0 <=? t)%float = true ∨ (end_time self / 2 =? 0)%float = false →
   ((2 ≤ Grid.dim g)%nat → is_Ok (Example3Setup.bc_values self g t km)) ∧
   ((Grid.dim g < 2)%nat →
      Example3Setup.bc_values self g t km
      = Raise (IndexError "index out of bounds for axis 0"))) ∧
  (kf ≠ km → is_Ok (Example3Setup.bc_values self g t kf)).
Proof.
  intros Hwf Hkm Hkf.
  assert (Hmech : (2 ≤ Grid.dim g)%nat → is_Ok (Example3Setup.bc_values self g t km)).
  { intros Hdim.
    destruct (subface_mask_Ok g Hwf) as (tp & mask & Htp & Hmask & Hlen & _).
    eexists. by apply (bc_values_mechanics self g t km Hkm tp mask). }
  assert (Hflow : kf ≠ km → is_Ok (Example3Setup.bc_values self g t kf)).
  { intros Hne. eexists. by apply (bc_values_flow self g t km). }
  assert (Hlow : (Grid.dim g < 2)%nat →
            Example3Setup.bc_values self g t km
            = Raise (IndexError "index out of bounds for axis 0")).
  { intros Hdim. by apply bc_values_mechanics_low_dim. }
  split; [|done].
  intros key. split.
  - intros [msg Hraise].
    destruct (decide (key = km)) as [->|Hnm].
    + destruct (le_lt_dec 2 (Grid.dim g)) as [Hdim|Hdim].
      * destruct (Hmech Hdim) as [v Hv]. congruence.
      * rewrite (Hlow Hdim) in Hraise. discriminate.
    + destruct (decide (key = kf)) as [->|Hnf]; [|done].
      destruct (Hflow Hnm) as [v Hv]. congruence.
  - intros [Hnm Hnf]. eexists. by apply (bc_values_unknown self g t km Hwf Hkm kf).
Qed.

Lemma C10_bc_values_keywords_witness :
  (∃ msg, Example3Setup.bc_values Sample.ready Sample.square 0.03 "heat"
          = Raise (ValueError msg)) ∧
  is_Ok (Example3Setup.bc_values Sample.ready Sample.square 0.03 "mech") ∧
  is_Ok (Example3Setup.bc_values Sample.ready Sample.square 0.03 "flow").
Proof.
  destruct (C10_bc_values_keywords Sample.ready Sample.square 0.03 "mech" "flow")
    as (Hiff & Hmech & Hflow); [reflexivity | reflexivity | reflexivity |].
  split; [|split].
  - apply Hiff. split; discriminate.
  - apply Hmech; [left; reflexivity | simpl; lia].
  - apply Hflow. discriminate.
Defined.

(** C10 as stated fails on a grid of dimension one: the keywords are
    recorded, the keyword is the mechanics keyword, the time is not
    negative, and the call raises. *)
Lemma C10_counterexample :
  Grid.well_formed Sample.segment = true ∧
  (0 <=? 0.03)%float = true ∧
  key_m Sample.ready = Some "mech" ∧ key_f Sample.ready = Some "flow" ∧
  ¬ is_Ok (Example3Setup.bc_values Sample.ready Sample.segment 0.03 "mech").
Proof.
  repeat split; try (vm_compute; reflexivity).
  intros [v Hv]. vm_compute in Hv. discriminate.
Qed.

(** * Further properties of the setup *)

(** ** [bc_values]: order of evaluation and edge cases *)

Lemma take_length {A} (a : list A) (idx : list nat) xs :
  np.take a idx = Ok xs → length xs = length idx.
Proof.
  revert xs. induction idx as [|i idx IH]; simpl; intros xs.
  - by intros [= <-].
  - destruct (a !! i); [|discriminate].
    destruct (np.take a idx) as [ys|]; simpl; [|discriminate].
    intros [= <-]. simpl. f_equal. by apply IH.
Qed.

(** The mechanics branch, once the masks exist: it returns on a grid of
    dimension two or more and raises otherwise. *)
Lemma bc_values_mechanics_cases self g t km tp mask :
  key_m self = Some km →
  Example3Setup.top g = Ok tp →
  np.take tp (Grid.fno_unique g) = Ok mask →
  Example3Setup.bc_values self g t km =
    if decide (2 ≤ Grid.dim g)%nat
    then Ok (np.ravel_F (loaded (Grid.dim g) (length (Grid.fno_unique g)) mask
                           (Example3Setup.displacement self t).1
                           (Example3Setup.displacement self t).2))
    else Raise (IndexError "index out of bounds for axis 0").
Proof.
  intros Hkm Htp Hmask. pose proof (take_length _ _ _ Hmask) as Hlen.
  destruct (decide _) as [Hdim|Hdim].
  - by apply (bc_values_mechanics self g t km Hkm tp mask).
  - unfold Example3Setup.bc_values.
    rewrite Htp, Hkm. simpl. rewrite bool_decide_eq_true_2 by done.
    destruct (Example3Setup.displacement self t) as [x y]. simpl.
    rewrite Hmask. simpl.
    destruct (Grid.dim g) as [|[|d]]; [reflexivity| |lia].
    rewrite (setitem_row_mask_Ok _ 0 mask x (np.zeros (length (Grid.fno_unique g))));
      [reflexivity | reflexivity |].
    unfold np.zeros. by rewrite length_replicate.
Qed.

(** X1: before [set_parameters] has run, the attribute [key_m] does not
    exist and [bc_values] raises AttributeError, whatever the keyword. *)
Theorem bc_values_before_set_parameters self g t key :
  Grid.well_formed g = true → key_m self = None →
  Example3Setup.bc_values self g t key = Raise (AttributeError "key_m").
Proof.
  intros Hwf Hkm. unfold Example3Setup.bc_values.
  destruct (top_Ok g Hwf) as (tp & Htp & _). rewrite Htp, Hkm. reflexivity.
Qed.

Lemma bc_values_before_set_parameters_witness :
  Example3Setup.bc_values Sample.setup Sample.square 0.01 "flow"
  = Raise (AttributeError "key_m").
Proof.
  apply bc_values_before_set_parameters; reflexivity.
Defined.

Lemma bc_values_returns_at_any_time self g t t' key v :
  Example3Setup.bc_values self g t key = Ok v →
  ∃ v', Example3Setup.bc_values self g t' key = Ok v' ∧ length v' = length v.
Proof.
  destruct (Example3Setup.top g) as [tp|e] eqn:Htp.
  2:{ unfold Example3Setup.bc_values. rewrite Htp. discriminate. }
  destruct (key_m self) as [km|] eqn:Hkm.
  2:{ unfold Example3Setup.bc_values. rewrite Htp, Hkm. discriminate. }
  destruct (decide (key = km)) as [->|Hne].
  - destruct (np.take tp (Grid.fno_unique g)) as [mask|e] eqn:Hmask.
    2:{ unfold Example3Setup.bc_values. rewrite Htp, Hkm. simpl.
        rewrite bool_decide_eq_true_2 by done.
        destruct (Example3Setup.displacement self t). simpl.
        rewrite Hmask. discriminate. }
    rewrite !(bc_values_mechanics_cases self g _ km tp mask Hkm Htp Hmask).
    destruct (decide _); [|discriminate].
    intros [= <-]. eexists. split; [reflexivity|].
    pose proof (take_length _ _ _ Hmask) as Hlen.
    rewrite !ravel_F_length, !loaded_length. f_equal.
    pose proof (loaded_rect (Grid.dim g) _ mask
                  (Example3Setup.displacement self t).1
                  (Example3Setup.displacement self t).2 Hlen) as H1.
    pose proof (loaded_rect (Grid.dim g) _ mask
                  (Example3Setup.displacement self t').1
                  (Example3Setup.displacement self t').2 Hlen) as H2.
    pose proof (loaded_length (Grid.dim g) (length (Grid.fno_unique g)) mask
                  (Example3Setup.displacement self t).1
                  (Example3Setup.displacement self t).2) as L1.
    pose proof (loaded_length (Grid.dim g) (length (Grid.fno_unique g)) mask
                  (Example3Setup.displacement self t').1
                  (Example3Setup.displacement self t').2) as L2.
    destruct (loaded _ _ _ (Example3Setup.displacement self t).1 _) as [|r1 a1];
      destruct (loaded _ _ _ (Example3Setup.displacement self t').1 _) as [|r2 a2];
      simpl in *; try lia.
    inversion H1; inversion H2; congruence.
  - unfold Example3Setup.bc_values. rewrite Htp, Hkm. simpl.
    rewrite bool_decide_eq_false_2 by done.
    destruct (key_f self) as [kf|]; simpl; [|discriminate].
    destruct (bool_decide (key = kf)); [|discriminate].
    intros [= <-]. eauto.
Qed.

(** X3: whether [bc_values] returns, and the length of what it returns,
    does not depend on the time: a call that returns at one time returns a
    vector of the same length at every other time [t'] at which the ramp
    can be evaluated ([t' >= 0], or [end_time / 2] not zero, so that the
    divisions have a non-zero divisor or are not reached). *)
Theorem bc_values_shape_independent_of_time self g t t' key v :
  Example3Setup.bc_values self g t key = Ok v →
  (0 <=? t')%float = true ∨ (end_time self / 2 =? 0)%float = false →
  ∃ v', Example3Setup.bc_values self g t' key = Ok v' ∧ length v' = length v.
Proof. intros Hv _. by apply (bc_values_returns_at_any_time self g t). Qed.

Lemma bc_values_shape_independent_of_time_witness :
  ∃ v', Example3Setup.bc_values Sample.ready Sample.square 0.04 "mech" = Ok v'
        ∧ length v' = 16%nat.
Proof.
  apply (bc_values_shape_independent_of_time Sample.ready Sample.square
           0.01 0.04 "mech"
           (np.ravel_F (loaded 2 8 [false; false; true; true; false; false; false; false]
                          (Example3Setup.displacement Sample.ready 0.01).1
                          (Example3Setup.displacement Sample.ready 0.01).2))).
  - vm_compute. reflexivity.
  - left. reflexivity.
Defined.

(** Zero divided by a positive number compares equal to zero. *)
Lemma zero_div_positive (z h : float) (s : bool) :
  Prim2SF z = S754_zero s → (0 <? h)%float = true → (z / h =? 0)%float = true.
Proof.
  intros Hz Hh. rewrite ltb_spec in Hh. rewrite FloatAxioms.eqb_spec, div_spec, Hz.
  change (Prim2SF 0) with (S754_zero false) in *.
  destruct (Prim2SF h) as [sh|sh| |sh mh eh]; try discriminate;
    destruct sh; try discriminate; by destruct s.
Qed.

Lemma ravel_F_Forall (P : float → Prop) (a : list (list float)) (n : nat) :
  Forall (λ r, length r = n) a → Forall (Forall P) a → Forall P (np.ravel_F a).
Proof.
  intros Hrect Hall. unfold np.ravel_F. apply Forall_join, Forall_fmap.
  apply Forall_seq. intros j [_ Hj]. simpl in Hj. cbn.
  apply Forall_fmap, Forall_lookup. intros i row Hrow. cbn.
  assert (Hn : np.ncols a = n).
  { destruct a as [|r0 a']; [discriminate|]. simpl. by inversion Hrect. }
  pose proof (Forall_lookup_1 _ _ _ _ Hrect Hrow) as Hlen. simpl in Hlen.
  pose proof (Forall_lookup_1 _ _ _ _ Hall Hrow) as HP.
  apply (proj1 (Forall_nth P 0%float row) HP). lia.
Qed.

Lemma loaded_Forall (P : float → Prop) (dim n : nat) (mask : list bool) (x y : float) :
  P x → P y → P 0%float → Forall (Forall P) (loaded dim n mask x y).
Proof.
  intros Hx Hy H0. unfold loaded.
  assert (Hrow : ∀ v, P v →
    Forall P (zip_with (λ (b : bool) old, if b then v else old) mask (np.zeros n))).
  { intros v Hv. apply Forall_lookup. intros i e.
    rewrite lookup_zip_with_Some. intros (b & old & -> & _ & Hold).
    apply lookup_replicate in Hold as [-> _]. by destruct b. }
  apply Forall_insert; [apply Forall_insert|]; auto.
  apply Forall_replicate. by apply Forall_replicate.
Qed.

(** X4: if the loading phase has positive length ([0 < end_time / 2]),
    the mechanics boundary values at time 0 are zero: every entry of the
    vector compares equal to 0 (the second entry of a top sub-face is the
    negative zero [-0.002 * 0 / (end_time / 2)]). *)
Theorem bc_values_mechanics_at_time_zero self g km :
  Grid.well_formed g = true → key_m self = Some km → (2 ≤ Grid.dim g)%nat →
  (0 <? end_time self / 2)%float = true →
  ∃ v, Example3Setup.bc_values self g 0 km = Ok v ∧
       Forall (λ e, (e =? 0)%float = true) v.
Proof.
  intros Hwf Hkm Hdim Hh.
  destruct (subface_mask_Ok g Hwf) as (tp & mask & Htp & Hmask & Hlen & _).
  eexists. split; [by apply (bc_values_mechanics self g 0 km Hkm tp mask)|].
  apply ravel_F_Forall with (n := length (Grid.fno_unique g));
    [by apply loaded_rect|].
  unfold Example3Setup.displacement. rewrite Hh. cbn [fst snd].
  apply loaded_Forall.
  - by apply (zero_div_positive _ _ false).
  - by apply (zero_div_positive _ _ true).
  - reflexivity.
Qed.

Lemma bc_values_mechanics_at_time_zero_witness :
  ∃ v, Example3Setup.bc_values Sample.ready Sample.square 0 "mech" = Ok v ∧
       Forall (λ e, (e =? 0)%float = true) v.
Proof.
  apply bc_values_mechanics_at_time_zero;
    [reflexivity | reflexivity | simpl; lia | reflexivity].
Defined.

(** ** [set_parameters]: what a completed call leaves behind *)




(** X8: in every completed call each of the three couplings has exactly
    two keys, the grid [g] and the pair [(g, g)]: the two [g: ...] items
    of each dictionary display fall on one key. The grid entry of the
    Robin coupling names the term [("u", "div_sigma")]. *)
Theorem set_parameters_coupling_keys super_set_parameters g mg w r w' :
  Example3Setup.set_parameters super_set_parameters g mg w = (Ok r, w') →
  ∃ couplings,
    COUPLING_DISCRETIZATION (data_edge w') = Some couplings ∧
    (∀ name c, couplings !! name = Some c →
       ∀ key, is_Some (c !! key) ↔
              key = inl (Grid.grid_id g)
              ∨ key = inr (Grid.grid_id g, Grid.grid_id g)) ∧
    (couplings !! "robin_discretization" ≫= λ c, c !! inl (Grid.grid_id g))
    = Some (Term "u" "div_sigma").
Proof.
  intros Hrun.
  destruct (set_parameters_inv _ _ _ _ _ _ Hrun)
    as (km & w1 & P & Pe & pm & pc & bc_flow & p_bc & u_bc0 & u_bc & _ & -> & ->).
  eexists. split; [reflexivity|].
  unfold dict_display. cbn [foldl fst snd]. split.
  - intros name c Hc key.
    repeat (apply lookup_insert_Some in Hc as [[<- <-]|[? Hc]]);
      try (by rewrite lookup_empty in Hc);
      (split;
       [ intros [v Hv];
         repeat (apply lookup_insert_Some in Hv as [[<- _]|[? Hv]]);
           try (by rewrite lookup_empty in Hv); tauto
       | intros [-> | ->]; by simplify_map_eq ]).
  - by simplify_map_eq.
Qed.

Lemma set_parameters_coupling_keys_witness :
  ∃ couplings,
    COUPLING_DISCRETIZATION (data_edge Sample.after) = Some couplings ∧
    (couplings !! "robin_discretization" ≫= λ c, c !! inl 0%nat)
    = Some (Term "u" "div_sigma").
Proof.
  destruct (set_parameters_coupling_keys (Sample.parent_with "mech" "mech")
              Sample.square Sample.mortar Sample.world
              ("mech", "flow") Sample.after sample_run)
    as (couplings & Hc & _ & Hrobin).
  exists couplings. split; [exact Hc | exact Hrobin].
Defined.

Lemma bc_values_Ok_top self g t key v :
  Example3Setup.bc_values self g t key = Ok v → ∃ tp, Example3Setup.top g = Ok tp.
Proof.
  unfold Example3Setup.bc_values.
  destruct (Example3Setup.top g) as [tp|e]; [eauto | discriminate].
Qed.

(** X9: [set_parameters] and [bc_values] agree on the keywords: after a
    completed call, on the same grid, [bc_values] raises "Unknown keyword"
    for every keyword other than the two returned ones, and returns a
    vector for each of the two at every time at which the ramp can be
    evaluated ([t >= 0], or [end_time / 2] not zero). *)
Theorem bc_values_after_set_parameters super_set_parameters g mg w r w' t :
  Example3Setup.set_parameters super_set_parameters g mg w = (Ok r, w') →
  ((0 <=? t)%float = true ∨ (end_time (self w') / 2 =? 0)%float = false →
   is_Ok (Example3Setup.bc_values (self w') g t r.1) ∧
   is_Ok (Example3Setup.bc_values (self w') g t r.2)) ∧
  ∀ key, key ≠ r.1 → key ≠ r.2 →
    Example3Setup.bc_values (self w') g t key
    = Raise (ValueError ("Unknown keyword: " +:+ key)).
Proof.
  intros Hrun.
  destruct (set_parameters_inv _ _ _ _ _ _ Hrun)
    as (km & w1 & P & Pe & pm & pc & bc_flow & p_bc & u_bc0 & u_bc
        & Hprep & -> & ->).
  destruct Hprep as (_ & _ & _ & _ & _ & _ & _ & Hp & _ & Hu).
  rewrite registered_self. cbn [fst snd].
  split; [intros _; split|].
  - destruct (bc_values_returns_at_any_time _ _ _ t _ _ Hu) as (v & Hv & _).
    by exists v.
  - destruct (bc_values_returns_at_any_time _ _ _ t _ _ Hp) as (v & Hv & _).
    by exists v.
  - intros key Hm Hf. destruct (bc_values_Ok_top _ _ _ _ _ Hu) as [tp Htp].
    unfold Example3Setup.bc_values. rewrite Htp. cbn.
    by rewrite !bool_decide_eq_false_2.
Qed.

Lemma bc_values_after_set_parameters_witness :
  is_Ok (Example3Setup.bc_values (self Sample.after) Sample.square 0.04 "mech").
Proof.
  refine (proj1 (proj1 (bc_values_after_set_parameters
                          (Sample.parent_with "mech" "mech")
                          Sample.square Sample.mortar Sample.world
                          ("mech", "flow") Sample.after 0.04 sample_run) _)).
  left. reflexivity.
Defined.

(** X10: the boundary values a completed call stores are those of
    [bc_values] at the first time step [end_time / 20], and the values
    stored in the mechanics state are those at time 0: under the flow
    keyword always, under the mechanics keyword when it is not the flow
    keyword. *)
Theorem set_parameters_stores_first_step_values
    super_set_parameters g mg w r w' :
  Example3Setup.set_parameters super_set_parameters g mg w = (Ok r, w') →
  (∃ p_bc,
     Example3Setup.bc_values (self w') g (end_time (self w') / 20) r.2 = Ok p_bc ∧
     param_get r.2 "bc_values" (data_node w') = Some (VArray p_bc)) ∧
  (r.1 ≠ r.2 →
   ∃ u_bc u_bc0 state,
     Example3Setup.bc_values (self w') g (end_time (self w') / 20) r.1 = Ok u_bc ∧
     param_get r.1 "bc_values" (data_node w') = Some (VArray u_bc) ∧
     Example3Setup.bc_values (self w') g 0 r.1 = Ok u_bc0 ∧
     param_get r.1 "state" (data_node w') = Some (VDict state) ∧
     state !! "bc_values" = Some (VArray u_bc0)).
Proof.
  intros Hrun.
  destruct (set_parameters_inv _ _ _ _ _ _ Hrun)
    as (km & w1 & P & Pe & pm & pc & bc_flow & p_bc & u_bc0 & u_bc
        & Hprep & -> & ->).
  destruct Hprep as (_ & _ & _ & _ & _ & _ & _ & Hp & Hu0 & Hu).
  rewrite registered_self. cbn [fst snd].
  change (end_time (set_key_f "flow" (set_key_m km (self w1))))
    with (end_time (self w1)).
  split.
  - exists p_bc. split; [exact Hp|].
    by destruct (registered_flow_params g mg km w1 P Pe pm pc bc_flow p_bc u_bc0 u_bc)
      as (_ & _ & _ & ?).
  - intros Hne.
    destruct (registered_mechanics_params g mg km w1 P Pe pm pc bc_flow p_bc
                u_bc0 u_bc Hne) as (_ & _ & Hb & Hs).
    eexists u_bc, u_bc0, _.
    split; [exact Hu|]. split; [exact Hb|]. split; [exact Hu0|].
    split; [exact Hs|].
    unfold dict_display. cbn [foldl fst snd]. by simplify_map_eq.
Qed.

Lemma set_parameters_stores_first_step_values_witness :
  ∃ p_bc,
    Example3Setup.bc_values (self Sample.after) Sample.square
      (end_time (self Sample.after) / 20) "flow" = Ok p_bc ∧
    param_get "flow" "bc_values" (data_node Sample.after) = Some (VArray p_bc).
Proof.
  exact (proj1 (set_parameters_stores_first_step_values
                  (Sample.parent_with "mech" "mech")
                  Sample.square Sample.mortar Sample.world
                  ("mech", "flow") Sample.after sample_run)).
Defined.

(** ** [set_parameters]: missing dictionaries *)

Lemma bind_Raise {A B} (m : M A) (f : A → M B) (w w' : World) (e : Exception) :
  m w = (Raise e, w') → bind m f w = (Raise e, w').
Proof. intros H. unfold bind. rewrite H. reflexivity. Qed.

Lemma node_param_set_missing (w : World) keyword name v :
  (PARAMETERS (data_node w) ≫= λ Pd, Pd !! keyword) = None →
  ∃ key, node_param_set keyword name v w = (Raise (KeyError key), w) ∧
         (key = "parameters" ∨ key = keyword).
Proof.
  intros Hnone. unfold node_param_set, bind, get_data_node, lift, param_set.
  destruct (PARAMETERS (data_node w)) as [Pd|]; cbn in Hnone.
  - rewrite Hnone. eauto.
  - eauto.
Qed.

Lemma edge_param_set_missing (w : World) keyword name v :
  (PARAMETERS (data_edge w) ≫= λ Pd, Pd !! keyword) = None →
  ∃ key, edge_param_set keyword name v w = (Raise (KeyError key), w) ∧
         (key = "parameters" ∨ key = keyword).
Proof.
  intros Hnone. unfold edge_param_set, bind, get_data_edge, lift, param_set.
  destruct (PARAMETERS (data_edge w)) as [Pd|]; cbn in Hnone.
  - rewrite Hnone. eauto.
  - eauto.
Qed.

(** The steps of [set_parameters] that read the grid succeed on a
    well-formed grid of dimension two or three. *)
Lemma grid_steps_Ok (self2 : Setup) (g : Grid.t) (dt : float) (km : string) :
  Grid.well_formed g = true → (2 ≤ Grid.dim g)%nat →
  key_m self2 = Some km → key_f self2 = Some "flow" →
  ∃ east west bc_flow p_bc u_bc0 u_bc,
    Example3Setup.upper_faces g 0 = Ok east ∧
    Example3Setup.lower_faces g 0 = Ok west ∧
    Example3Setup.boundary_to_sub_boundary
      {| bc_grid := Grid.grid_id g; bc_faces := west; bc_cond := "dir" |}
      (SubcellTopology.make g) = Ok bc_flow ∧
    Example3Setup.bc_values self2 g dt "flow" = Ok p_bc ∧
    Example3Setup.bc_values self2 g 0 km = Ok u_bc0 ∧
    Example3Setup.bc_values self2 g dt km = Ok u_bc.
Proof.
  intros Hwf Hdim Hkm Hkf.
  destruct (upper_faces_Ok g 0 Hwf) as (east & Heast & _); [lia|].
  destruct (lower_faces_Ok g 0 Hwf) as (west & Hwest & Hwlen); [lia|].
  destruct (take_Ok west (Grid.fno_unique g)) as (faces & Hfaces & _).
  { rewrite Hwlen. by apply well_formed_spec in Hwf as (_&_&_&_&_&?&_). }
  destruct (subface_mask_Ok g Hwf) as (tp & mask & Htp & Hmask & Hlen & _).
  pose proof (λ t, bc_values_mechanics self2 g t km Hkm tp mask Htp Hmask Hlen Hdim)
    as Hmech.
  assert (∃ p_bc, Example3Setup.bc_values self2 g dt "flow" = Ok p_bc) as [p_bc Hp].
  { destruct (decide ("flow" = km)) as [<-|Hne].
    - eexists. apply Hmech.
    - eexists. by apply (bc_values_flow self2 g _ km). }
  exists east, west,
    {| bc_grid := Grid.grid_id g; bc_faces := faces; bc_cond := "dir" |}, p_bc.
  eexists _, _. split; [done|]. split; [done|]. split.
  { unfold Example3Setup.boundary_to_sub_boundary.
    cbn [bc_faces SubcellTopology.fno_unique SubcellTopology.make].
    rewrite Hfaces. reflexivity. }
  split; [done|]. split; apply Hmech.
Qed.

Ltac run_past_check Hparent :=
  unfold Example3Setup.set_parameters;
  unfold bind at 1; rewrite Hparent;
  rewrite bool_decide_eq_true_2 by done;
  cbn [negb];
  cbn [bind get_self put_self self data_node data_edge trace].

(** X11: when the parent left no parameter dictionary for its keyword
    on the grid, and the pressure scale is not zero (so that the division
    [viscosity / pressure_scale] has a non-zero divisor), [set_parameters]
    raises KeyError at its first write; by then it has recorded the two
    keywords on the setup and changed nothing else. *)
Theorem set_parameters_missing_node_parameters
    super_set_parameters g mg w km w1 :
  super_set_parameters g mg w = (Ok (km, km), w1) →
  Grid.well_formed g = true → (2 ≤ Grid.dim g)%nat →
  (pressure_scale (self w1) =? 0)%float = false →
  (PARAMETERS (data_node w1) ≫= λ Pd, Pd !! km) = None →
  ∃ key,
    (key = "parameters" ∨ key = km) ∧
    Example3Setup.set_parameters super_set_parameters g mg w
    = (Raise (KeyError key),
       {| self := set_key_f "flow" (set_key_m km (self w1));
          data_node := data_node w1; data_edge := data_edge w1;
          trace := trace w1 |}).
Proof.
  intros Hparent Hwf Hdim _ Hnone.
  destruct (grid_steps_Ok (set_key_f "flow" (set_key_m km (self w1))) g
              (end_time (self w1) / 20) km Hwf Hdim eq_refl eq_refl)
    as (east & west & bc_flow & p_bc & u_bc0 & u_bc
        & Heast & Hwest & Hbc & Hp & Hu0 & Hu).
  run_past_check Hparent.
  change (end_time (set_key_f "flow" (set_key_m km (self w1))))
    with (end_time (self w1)).
  rewrite (bind_lift_Ok _ _ _ _ Heast), (bind_lift_Ok _ _ _ _ Hwest).
  rewrite (bind_lift_Ok _ _ _ _ Hbc), (bind_lift_Ok _ _ _ _ Hp).
  rewrite (bind_lift_Ok _ _ _ _ Hu0), (bind_lift_Ok _ _ _ _ Hu).
  match goal with |- context [bind (node_param_set km "biot_alpha" ?v) ?f ?w0] =>
    destruct (node_param_set_missing w0 km "biot_alpha" v Hnone) as (key & Hset & Hkey);
    exists key; split; [exact Hkey|];
    exact (bind_Raise _ f _ _ _ Hset)
  end.
Qed.

Lemma set_parameters_missing_node_parameters_witness :
  ∃ key,
    (key = "parameters" ∨ key = "mech") ∧
    Example3Setup.set_parameters (Sample.parent_bare "mech")
      Sample.square Sample.mortar Sample.world
    = (Raise (KeyError key),
       {| self := Sample.ready; data_node := Sample.no_data;
          data_edge := Sample.no_data; trace := [] |}).
Proof.
  apply (set_parameters_missing_node_parameters (Sample.parent_bare "mech")
           Sample.square Sample.mortar Sample.world "mech" Sample.world);
    [reflexivity | reflexivity | simpl; lia | reflexivity | reflexivity].
Defined.

(** X12: when the parent initialised the parameter dictionary of the
    grid but not that of the edge, and the pressure scale is not zero (so
    that the division [viscosity / pressure_scale] has a non-zero
    divisor), [set_parameters] raises KeyError at the
    write of the mortar state, after it has already stored the Biot
    coefficient, the time step, the boundary values and the state in the
    mechanics dictionary of the grid: the failure leaves the grid
    parameters half updated. *)
Theorem set_parameters_missing_edge_parameters
    super_set_parameters g mg w km w1 P pm :
  super_set_parameters g mg w = (Ok (km, km), w1) →
  Grid.well_formed g = true → (2 ≤ Grid.dim g)%nat →
  (pressure_scale (self w1) =? 0)%float = false →
  PARAMETERS (data_node w1) = Some P → P !! km = Some pm →
  (PARAMETERS (data_edge w1) ≫= λ Pd, Pd !! km) = None →
  ∃ key w',
    (key = "parameters" ∨ key = km) ∧
    Example3Setup.set_parameters super_set_parameters g mg w
    = (Raise (KeyError key), w') ∧
    param_get km "biot_alpha" (data_node w') = Some (VInt 1) ∧
    param_get km "time_step" (data_node w')
    = Some (VFloat (end_time (self w1) / 20)) ∧
    is_Some (param_get km "bc_values" (data_node w')) ∧
    is_Some (param_get km "state" (data_node w')) ∧
    data_edge w' = data_edge w1.
Proof.
  intros Hparent Hwf Hdim _ HP HPm Hnone.
  destruct (grid_steps_Ok (set_key_f "flow" (set_key_m km (self w1))) g
              (end_time (self w1) / 20) km Hwf Hdim eq_refl eq_refl)
    as (east & west & bc_flow & p_bc & u_bc0 & u_bc
        & Heast & Hwest & Hbc & Hp & Hu0 & Hu).
  run_past_check Hparent.
  change (end_time (set_key_f "flow" (set_key_m km (self w1))))
    with (end_time (self w1)).
  rewrite (bind_lift_Ok _ _ _ _ Heast), (bind_lift_Ok _ _ _ _ Hwest).
  rewrite (bind_lift_Ok _ _ _ _ Hbc), (bind_lift_Ok _ _ _ _ Hp).
  rewrite (bind_lift_Ok _ _ _ _ Hu0), (bind_lift_Ok _ _ _ _ Hu).
  erewrite bind_Ok; [|by eapply node_param_set_Ok].
  erewrite bind_Ok; [|eapply node_param_set_Ok; [reflexivity|apply lookup_insert_eq]].
  erewrite bind_Ok; [|eapply node_param_set_Ok; [reflexivity|apply lookup_insert_eq]].
  erewrite bind_Ok; [|eapply node_param_set_Ok; [reflexivity|apply lookup_insert_eq]].
  match goal with |- context [bind (edge_param_set km "state" ?v) ?f ?w0] =>
    destruct (edge_param_set_missing w0 km "state" v Hnone) as (key & Hset & Hkey);
    exists key, w0; split; [exact Hkey|];
    split; [exact (bind_Raise _ f _ _ _ Hset)|]
  end.
  unfold param_get. cbn [data_node data_edge PARAMETERS set_PARAMETERS mbind option_bind].
  rewrite lookup_insert_eq. cbn.
  repeat split; try (by simplify_map_eq); eexists; by simplify_map_eq.
Qed.

Lemma set_parameters_missing_edge_parameters_witness :
  ∃ key w',
    Example3Setup.set_parameters (Sample.parent_node_only "mech")
      Sample.square Sample.mortar Sample.world
    = (Raise (KeyError key), w') ∧
    param_get "mech" "biot_alpha" (data_node w') = Some (VInt 1).
Proof.
  destruct (set_parameters_missing_edge_parameters
              (Sample.parent_node_only "mech") Sample.square Sample.mortar
              Sample.world "mech"
              (Sample.parent_node_only "mech" Sample.square Sample.mortar
                 Sample.world).2
              (<["transport" := dict_display [("porosity", VFloat 0.2)]]>
                 {["mech" := dict_display [("friction", VFloat 0.5)]]})
              (dict_display [("friction", VFloat 0.5)]))
    as (key & w' & _ & Hrun & Halpha & _);
    [reflexivity | reflexivity | simpl; lia | reflexivity | reflexivity
    | vm_compute; reflexivity | reflexivity |].
  exists key, w'. split; [exact Hrun | exact Halpha].
Defined.

(** ** The constructor *)

(** X14: whatever its arguments, the constructor leaves the end time at
    [5 * viscosity * S * METER / k], the binary64 number 0.05 (the value 1
    assigned first is overwritten); the loading phase has positive length
    and the first time step [end_time / 20] lies inside it; the keywords
    are not yet recorded. *)
Theorem constructor_end_time (parent_pressure_scale : float)
    (mesh_args : list (string * float)) (out_name : string) :
  let s := Example3Setup.init parent_pressure_scale mesh_args out_name in
  end_time s = 0.05%float ∧
  (0 <? end_time s / 2)%float = true ∧
  (end_time s / 20 <? end_time s / 2)%float = true ∧
  key_m s = None ∧ key_f s = None.
Proof. repeat split; vm_compute; reflexivity. Qed.
